(** * admin.py: the project's administration script

    A shallow embedding of [admin.py] (deployment, status, dependency
    update and backup commands) and the properties of its dispatcher, its
    process runner and its actions.

    The script is sequential glue around external collaborators: the shell
    (git, npm, tar), an HTTP client, the file system, the clock and the
    terminal.  Those are taken as an environment: a record of oracles over
    an abstract world.  The script itself is written in a small
    state-and-exception monad that threads the world and records every
    interaction with the environment in a log. *)

From Stdlib Require Import String Ascii List ZArith Bool Lia DecimalString.
Import ListNotations.
Open Scope string_scope.
Open Scope Z_scope.

(* ===================================================================== *)
(** ** Python string operations used by the script *)
(* ===================================================================== *)

Module PyStr.

Definition LF : ascii := "010"%char.
Definition ESC : ascii := "027"%char.
Definition nl : string := String LF EmptyString.
Definition dquote : string := String "034"%char EmptyString.

(** A [str] is held as its UTF-8 encoding: a character below U+0080 is one
    byte, and no byte of a longer character is below 0x80. *)

(** ASCII text: every byte is below 0x80. *)
Fixpoint is_ascii (s : string) : bool :=
  match s with
  | EmptyString => true
  | String c r => (nat_of_ascii c <? 128)%nat && is_ascii r
  end.

(** What [str.lower] does to ASCII text: the letters A-Z are mapped to a-z
    and every other character is kept.  Beyond ASCII [str.lower] follows
    the case tables of Unicode, which are the interpreter's: there the
    script's [lower] is a function of the environment (see [Env]). *)
Definition ascii_lower (c : ascii) : ascii :=
  let n := nat_of_ascii c in
  if ((65 <=? n) && (n <=? 90))%nat then ascii_of_nat (n + 32) else c.

Fixpoint lower_ascii (s : string) : string :=
  match s with
  | EmptyString => EmptyString
  | String c r => String (ascii_lower c) (lower_ascii r)
  end.

(** [str.isspace] on a character of one byte: TAB, LF, VT, FF, CR, the four
    separators 0x1c-0x1f and the space. *)
Definition isspace (c : ascii) : bool :=
  let n := nat_of_ascii c in
  (((9 <=? n) && (n <=? 13)) || ((28 <=? n) && (n <=? 32)))%nat.

(** [str.isspace] on a character of two bytes: U+0085 (C2 85) and U+00A0
    (C2 A0). *)
Definition isspace2 (a b : ascii) : bool :=
  let x := nat_of_ascii a in
  let y := nat_of_ascii b in
  ((x =? 194) && ((y =? 133) || (y =? 160)))%nat.

(** [str.isspace] on a character of three bytes: U+1680 (E1 9A 80),
    U+2000-U+200A (E2 80 80-8A), U+2028 and U+2029 (E2 80 A8, E2 80 A9),
    U+202F (E2 80 AF), U+205F (E2 81 9F) and U+3000 (E3 80 80).  No
    character of four bytes is white space. *)
Definition isspace3 (a b c : ascii) : bool :=
  let x := nat_of_ascii a in
  let y := nat_of_ascii b in
  let z := nat_of_ascii c in
  (((x =? 225) && (y =? 154) && (z =? 128))
   || ((x =? 226) && (y =? 128)
       && (((128 <=? z) && (z <=? 138)) || (z =? 168) || (z =? 169) || (z =? 175)))
   || ((x =? 226) && (y =? 129) && (z =? 159))
   || ((x =? 227) && (y =? 128) && (z =? 128)))%nat.

(** Dropping from the front of [s] the characters that [w1], [w2] and [w3]
    accept as one, two and three bytes. *)
Fixpoint strip_front (w1 : ascii -> bool) (w2 : ascii -> ascii -> bool)
    (w3 : ascii -> ascii -> ascii -> bool) (s : string) : string :=
  match s with
  | EmptyString => EmptyString
  | String a r =>
      if w1 a then strip_front w1 w2 w3 r
      else match r with
           | EmptyString => s
           | String b r2 =>
               if w2 a b then strip_front w1 w2 w3 r2
               else match r2 with
                    | EmptyString => s
                    | String c r3 =>
                        if w3 a b c then strip_front w1 w2 w3 r3 else s
                    end
           end
  end.

(** The text starts with a character that [strip_front] drops. *)
Definition starts_dropped (w1 : ascii -> bool) (w2 : ascii -> ascii -> bool)
    (w3 : ascii -> ascii -> ascii -> bool) (s : string) : bool :=
  match s with
  | EmptyString => false
  | String a r =>
      w1 a
      || match r with
         | EmptyString => false
         | String b r2 =>
             w2 a b
             || match r2 with
                | EmptyString => false
                | String c _ => w3 a b c
                end
         end
  end.

Definition lstrip (s : string) : string := strip_front isspace isspace2 isspace3 s.

Definition rev (s : string) : string :=
  string_of_list_ascii (List.rev (list_ascii_of_string s)).

(** From the back: the same on the reversed bytes, where the bytes of a
    character come last byte first. *)
Definition rstrip (s : string) : string :=
  rev (strip_front isspace (fun a b => isspace2 b a) (fun a b c => isspace3 c b a)
                   (rev s)).

(** [str.strip()] with no argument. *)
Definition strip (s : string) : string := rstrip (lstrip s).

(** [s.split('\n')]: never the empty list, [''.split('\n') == ['']]. *)
Fixpoint split_lf (s : string) : list string :=
  match s with
  | EmptyString => [EmptyString]
  | String c r =>
      if Ascii.eqb c LF then EmptyString :: split_lf r
      else match split_lf r with
           | h :: t => String c h :: t
           | [] => [String c EmptyString]
           end
  end.

(** Truth value of a [str]: non-empty. *)
Definition truthy (s : string) : bool :=
  match s with EmptyString => false | _ => true end.

(** [str(n)] and [f"{n}"] for an [int]. *)
Definition str_int (n : Z) : string := NilZero.string_of_int (Z.to_int n).

(** Decimal digits of [n], zero-padded on the left to [width] digits
    (the [%Y], [%m], [%d], [%H], [%M], [%S] fields of [strftime]). *)
Fixpoint pad_digits (width : nat) (n : N) : string :=
  match width with
  | O => EmptyString
  | S w =>
      pad_digits w (n / 10)
      ++ String (ascii_of_N (48 + n mod 10)) EmptyString
  end.

(** [s.rstrip('/')] *)
Fixpoint lstrip_slash (s : string) : string :=
  match s with
  | String "/"%char r => lstrip_slash r
  | _ => s
  end.
Definition rstrip_slash (s : string) : string := rev (lstrip_slash (rev s)).

Fixpoint all_slashes (s : string) : bool :=
  match s with
  | EmptyString => true
  | String c r => Ascii.eqb c "/"%char && all_slashes r
  end.

(** The part of [s] up to and including its last ['/'] ([s[:s.rfind('/')+1]]):
    computed on the reversed text by dropping the characters before the
    first ['/']. *)
Fixpoint drop_to_slash (s : string) : string :=
  match s with
  | EmptyString => EmptyString
  | String c r => if Ascii.eqb c "/"%char then s else drop_to_slash r
  end.

(** [posixpath.dirname] *)
Definition dirname (p : string) : string :=
  let head := rev (drop_to_slash (rev p)) in
  if truthy head && negb (all_slashes head) then rstrip_slash head else head.

Definition starts_with_slash (s : string) : bool :=
  match s with String "/"%char _ => true | _ => false end.

Definition ends_with_slash (s : string) : bool := starts_with_slash (rev s).

(** [posixpath.join] of two components. *)
Definition join (a b : string) : string :=
  if starts_with_slash b then b
  else if negb (truthy a) || ends_with_slash a then a ++ b
  else a ++ "/" ++ b.

End PyStr.
Import PyStr.

(* ===================================================================== *)
(** ** Exceptions, environment and the execution monad *)
(* ===================================================================== *)

(** The exceptions that occur in the script.  [SystemExit] is what
    [sys.exit] raises; it derives from [BaseException] and not from
    [Exception].  [CalledProcessError] is raised by [subprocess.run] under
    [check=True].  [PyException text] stands for an instance [e] of any other
    subclass of [Exception] ([OSError], [EOFError], [ImportError],
    [requests.RequestException], ...) with [str(e) = text].  Asynchronous
    interrupts ([KeyboardInterrupt]) are not part of the model. *)
Inductive exn : Type :=
| SystemExit (code : Z)
| CalledProcessError (returncode : Z) (cmd output stderr : string)
| PyException (text : string).

(** [isinstance(e, Exception)] *)
Definition is_Exception (e : exn) : bool :=
  match e with SystemExit _ => false | _ => true end.

(** [str(e)] *)
Definition exn_str (e : exn) : string :=
  match e with
  | SystemExit code => str_int code
  | CalledProcessError rc cmd _ _ =>
      "Command '" ++ cmd ++ "' returned non-zero exit status " ++ str_int rc ++ "."
  | PyException text => text
  end.

(** What a call into the operating system gives back: a value, or an
    exception of class [Exception] with the given text. *)
Definition os_result (A : Type) : Type := (A + string)%type.

(** [subprocess.CompletedProcess] with captured text output. *)
Record completed : Type := mkCompleted {
  proc_stdout : string;
  proc_stderr : string;
  proc_returncode : Z
}.

(** [requests.Response]: the status code, and [json.dumps(response.json(),
    indent=2)] when the body parses, or the text of the exception
    [response.json()] raises. *)
Record response : Type := mkResponse {
  status_code : Z;
  json_pretty : os_result string
}.

(** [datetime.datetime] as returned by [datetime.now()]. *)
Record datetime : Type := mkDatetime {
  dt_year : N; dt_month : N; dt_day : N;
  dt_hour : N; dt_minute : N; dt_second : N
}.

(** [dt.strftime("%Y%m%d_%H%M%S")] *)
Definition strftime_stamp (dt : datetime) : string :=
  pad_digits 4 (dt_year dt) ++ pad_digits 2 (dt_month dt)
  ++ pad_digits 2 (dt_day dt) ++ "_"
  ++ pad_digits 2 (dt_hour dt) ++ pad_digits 2 (dt_minute dt)
  ++ pad_digits 2 (dt_second dt).

(** The external collaborators, over a world [W]. *)
Record Env (W : Type) : Type := mkEnv {
  (** [subprocess.run(command, cwd=cwd, shell=True, text=True, stdout=PIPE,
      stderr=PIPE)] without the [check] logic: the completed process, or
      the exception spawning it raised. *)
  spawn : string -> string -> W -> os_result completed * W;
  (** [input(prompt)]: the line typed, or [EOFError]. *)
  read_input : string -> W -> os_result string * W;
  (** [import requests; requests.get(url, timeout=t)] *)
  http_get : string -> Z -> W -> os_result response * W;
  (** [os.makedirs(path, exist_ok=True)] *)
  makedirs : string -> W -> os_result unit * W;
  (** [os.path.isfile(path)]: never raises *)
  isfile : string -> W -> bool;
  (** [shutil.copy2(src, dst)] *)
  copy2 : string -> string -> W -> os_result unit * W;
  (** [shutil.rmtree(path)] *)
  rmtree : string -> W -> os_result unit * W;
  (** [datetime.now()] *)
  now : W -> datetime;
  (** [str.lower] of the interpreter, with what the script relies on for
      its own tokens: on ASCII text it maps A-Z to a-z and keeps the rest. *)
  lower : string -> string;
  lower_on_ascii : forall s, is_ascii s = true -> lower s = lower_ascii s
}.
Arguments spawn {W}.
Arguments read_input {W}.
Arguments http_get {W}.
Arguments makedirs {W}.
Arguments isfile {W}.
Arguments copy2 {W}.
Arguments rmtree {W}.
Arguments now {W}.
Arguments lower {W}.
Arguments lower_on_ascii {W}.

(** Every interaction of the script with its environment. *)
Inductive event : Type :=
| EPrint (text : string)             (* print(text): the text and a newline *)
| EInput (prompt : string)           (* input(prompt) *)
| ESpawn (command cwd : string)      (* a shell command started in cwd *)
| EHttpGet (url : string) (timeout : Z)
| EMakeDirs (path : string)
| ECopy2 (src dst : string)
| ERmTree (path : string).

(** The machine state: the world, and the log of interactions so far, the
    most recent first. *)
Record state (W : Type) : Type := mkState {
  world : W;
  log : list event
}.
Arguments mkState {W}.
Arguments world {W}.
Arguments log {W}.

Inductive outcome (A : Type) : Type :=
| Ret (a : A)
| Raise (e : exn).
Arguments Ret {A}.
Arguments Raise {A}.

Definition M (W A : Type) : Type := state W -> outcome A * state W.

Definition ret {W A} (a : A) : M W A := fun s => (Ret a, s).

Definition raise {W A} (e : exn) : M W A := fun s => (Raise e, s).

Definition bind {W A B} (m : M W A) (k : A -> M W B) : M W B :=
  fun s => match m s with
           | (Ret a, s') => k a s'
           | (Raise e, s') => (Raise e, s')
           end.

Notation "x <- m ;; k" := (bind m (fun x => k))
  (at level 61, m at next level, right associativity).
Notation "m ;; k" := (bind m (fun _ => k))
  (at level 61, right associativity).
Notation "' pat <- m ;; k" := (bind m (fun x => match x with pat => k end))
  (at level 61, pat pattern, m at next level, right associativity).

(** [try: m  except <class> as e: handler e]: the handler chooses by
    returning [None] for the exceptions its clause does not match. *)
Definition try_except {W A} (m : M W A) (handler : exn -> option (M W A)) : M W A :=
  fun s => match m s with
           | (Ret a, s') => (Ret a, s')
           | (Raise e, s') =>
               match handler e with
               | Some k => k s'
               | None => (Raise e, s')
               end
           end.

(** The clause [except Exception as e]. *)
Definition except_Exception {W A} (h : exn -> M W A) (e : exn) : option (M W A) :=
  if is_Exception e then Some (h e) else None.

(** The clause [except subprocess.CalledProcessError as e]. *)
Definition except_CalledProcessError {W A}
    (h : Z -> string -> string -> string -> M W A) (e : exn) : option (M W A) :=
  match e with
  | CalledProcessError rc cmd out err => Some (h rc cmd out err)
  | _ => None
  end.

(** The bare clause [except:]. *)
Definition except_all {W A} (h : M W A) (e : exn) : option (M W A) := Some h.

Definition emit {W} (ev : event) : M W unit :=
  fun s => (Ret tt, mkState (world s) (ev :: log s)).

(** A call into the environment: logged, then run on the world. *)
Definition os_call {W A} (ev : event) (f : W -> os_result A * W) : M W A :=
  fun s => match f (world s) with
           | (inl a, w') => (Ret a, mkState w' (ev :: log s))
           | (inr text, w') => (Raise (PyException text), mkState w' (ev :: log s))
           end.

(** A read of the world that cannot fail and changes nothing. *)
Definition os_read {W A} (f : W -> A) : M W A := fun s => (Ret (f (world s)), s).

(** [sys.exit(code)] *)
Definition sys_exit {W A} (code : Z) : M W A := raise (SystemExit code).

(** The exit status of the interpreter when the script's top level ends
    with the given outcome: 0 on normal completion, the code of a
    [SystemExit], 1 after the traceback of any other uncaught exception. *)
Definition exit_code {A} (r : outcome A) : Z :=
  match r with
  | Ret _ => 0
  | Raise (SystemExit code) => code
  | Raise _ => 1
  end.

(** The bytes written to standard output, from the log: each [print]
    writes its text and a newline, each [input] writes its prompt. *)
Fixpoint stdout_of (chronological : list event) : string :=
  match chronological with
  | [] => EmptyString
  | EPrint text :: r => text ++ nl ++ stdout_of r
  | EInput prompt :: r => prompt ++ stdout_of r
  | _ :: r => stdout_of r
  end.

Definition stdout_text {W} (s : state W) : string := stdout_of (List.rev (log s)).

(** The shell commands started, oldest first. *)
Fixpoint commands_of (chronological : list event) : list string :=
  match chronological with
  | [] => []
  | ESpawn command _ :: r => command :: commands_of r
  | _ :: r => commands_of r
  end.

Definition commands_run {W} (s : state W) : list string := commands_of (List.rev (log s)).

(* ===================================================================== *)
(** ** The script *)
(* ===================================================================== *)

Module Colors.
Definition esc (code : string) : string := String ESC code.
Definition HEADER : string := esc "[95m".
Definition BLUE : string := esc "[94m".
Definition GREEN : string := esc "[92m".
Definition YELLOW : string := esc "[93m".
Definition RED : string := esc "[91m".
Definition ENDC : string := esc "[0m".
Definition BOLD : string := esc "[1m".
Definition UNDERLINE : string := esc "[4m".
End Colors.

(** Git remotes and URLs. *)
Definition GITHUB_REMOTE : string := "master".
Definition HEROKU_REMOTE : string := "heroku".
Definition GITHUB_USERNAME : string := "HikingHacker".
Definition REPO_NAME : string := "Resume-Improvement-App".
Definition GITHUB_PAGES_URL : string :=
  "https://" ++ GITHUB_USERNAME ++ ".github.io/" ++ REPO_NAME.
Definition GITHUB_REPO_URL : string :=
  "git@github.com:" ++ GITHUB_USERNAME ++ "/" ++ REPO_NAME ++ ".git".
Definition HEROKU_APP_NAME : string := "resume-improvement-api-b20bfe5902cf".
Definition HEROKU_URL : string := "https://" ++ HEROKU_APP_NAME ++ ".herokuapp.com".
Definition HEROKU_API_HEALTH_URL : string := HEROKU_URL ++ "/api/health".

(** The texts handed to [print] by the five printing helpers. *)
Definition header_line (text : string) : string :=
  nl ++ Colors.HEADER ++ Colors.BOLD ++ "=== " ++ text ++ " ===" ++ Colors.ENDC ++ nl.
Definition success_line (text : string) : string :=
  Colors.GREEN ++ "✓ " ++ text ++ Colors.ENDC.
Definition error_line (text : string) : string :=
  Colors.RED ++ "✗ " ++ text ++ Colors.ENDC.
Definition info_line (text : string) : string :=
  Colors.BLUE ++ "ℹ " ++ text ++ Colors.ENDC.
Definition warning_line (text : string) : string :=
  Colors.YELLOW ++ "⚠ " ++ text ++ Colors.ENDC.

Section Script.

Context {W : Type}.
(** The environment the script runs in. *)
Variable env : Env W.
(** [os.path.dirname(os.path.abspath(__file__))]: the directory the script
    lives in. *)
Variable PROJECT_ROOT : string.

Definition SERVER_DIR : string := join PROJECT_ROOT "server".

Definition print (text : string) : M W unit := emit (EPrint text).

Definition print_header (text : string) : M W unit := print (header_line text).
Definition print_success (text : string) : M W unit := print (success_line text).
Definition print_error (text : string) : M W unit := print (error_line text).
Definition print_info (text : string) : M W unit := print (info_line text).
Definition print_warning (text : string) : M W unit := print (warning_line text).

Definition input (prompt : string) : M W string :=
  os_call (EInput prompt) (read_input env prompt).

(** [subprocess.run(..., check=check, ...)]: under [check] a non-zero
    return code raises [CalledProcessError]. *)
Definition subprocess_run (command cwd : string) (check : bool) : M W completed :=
  result <- os_call (ESpawn command cwd) (spawn env command cwd) ;;
  if check && negb (proc_returncode result =? 0)
  then raise (CalledProcessError (proc_returncode result) command
                (proc_stdout result) (proc_stderr result))
  else ret result.

(** [cwd or PROJECT_ROOT] *)
Definition cwd_or_root (cwd : option string) : string :=
  match cwd with
  | Some d => if truthy d then d else PROJECT_ROOT
  | None => PROJECT_ROOT
  end.

(** [run_command(command, cwd=None, check=True)].  The first component of
    the result is [None] in the handler's return. *)
Definition run_command (command : string) (cwd : option string) (check : bool)
  : M W (option string * string * Z) :=
  try_except
    (result <- subprocess_run command (cwd_or_root cwd) check ;;
     ret (Some (strip (proc_stdout result)), strip (proc_stderr result),
          proc_returncode result))
    (except_CalledProcessError (fun returncode _ _ stderr =>
       print_error ("Command failed: " ++ command) ;;
       print stderr ;;
       (if check then sys_exit 1 else ret tt) ;;
       ret (None, stderr, returncode))).

(** [stdout.strip()] where [stdout] may be [None]. *)
Definition strip_attr (stdout : option string) : M W string :=
  match stdout with
  | Some text => ret (strip text)
  | None => raise (PyException "'NoneType' object has no attribute 'strip'")
  end.

Definition check_git_status : M W bool :=
  '(stdout, _, _) <- run_command "git status --porcelain" None true ;;
  text <- strip_attr stdout ;;
  ret (truthy text).

(** [deploy_frontend] from its comment [# Build the frontend] on: what
    runs when the function has not returned at the prompt. *)
Definition build_and_publish : M W bool :=
  print_info "Building frontend..." ;;
  '(_, stderr, code) <- run_command "npm run build" None false ;;
  if negb (code =? 0) then
    print_error "Frontend build failed:" ;;
    print stderr ;;
    ret false
  else
  print_success "Frontend built successfully" ;;
  print_info "Deploying to GitHub Pages..." ;;
  '(_, stderr, code) <-
     run_command ("npx gh-pages -d build -r " ++ GITHUB_REPO_URL) None false ;;
  if negb (code =? 0) then
    print_error "GitHub Pages deployment failed:" ;;
    print stderr ;;
    ret false
  else
  print_success "Frontend deployed to GitHub Pages" ;;
  print_info ("Frontend URL: " ++ GITHUB_PAGES_URL) ;;
  ret true.

Definition deploy_frontend : M W bool :=
  print_header "Deploying Frontend to GitHub Pages" ;;
  dirty <- check_git_status ;;
  if dirty then
    print_warning "There are uncommitted changes in the repository." ;;
    answer <- input "Do you want to continue anyway? (y/n): " ;;
    if negb (String.eqb (lower env answer) "y") then
      print_info "Deployment cancelled." ;;
      ret false
    else build_and_publish
  else build_and_publish.

(** [f'git commit -m "{commit_msg}"'] *)
Definition commit_command (commit_msg : string) : string :=
  "git commit -m " ++ dquote ++ commit_msg ++ dquote.

(** The stage-and-commit step of [deploy_backend]: the body of
    [if response == 'y']. *)
Definition commit_changes : M W unit :=
  commit_msg <- input "Enter commit message: " ;;
  run_command "git add ." None true ;;
  run_command (commit_command commit_msg) None true ;;
  print_success "Changes committed".

(** [deploy_backend] from its comment [# Push to Heroku] on. *)
Definition push_to_heroku : M W bool :=
  print_info "Deploying to Heroku..." ;;
  '(_, stderr, code) <-
     run_command ("git push " ++ HEROKU_REMOTE ++ " main") None false ;;
  if negb (code =? 0) then
    print_error "Heroku deployment failed:" ;;
    print stderr ;;
    ret false
  else
  print_success "Backend deployed to Heroku" ;;
  print_info ("Backend API URL: " ++ HEROKU_URL) ;;
  ret true.

(** [deploy_backend] up to its comment [# Push to Heroku]: the header and
    the offer to commit. *)
Definition offer_commit : M W unit :=
  print_header "Deploying Backend to Heroku" ;;
  dirty <- check_git_status ;;
  if dirty then
    print_warning "There are uncommitted changes in the repository." ;;
    answer <- input "Do you want to commit them before deployment? (y/n): " ;;
    if String.eqb (lower env answer) "y" then commit_changes else ret tt
  else ret tt.

Definition deploy_backend : M W bool :=
  offer_commit ;;
  push_to_heroku.

(** The first [try] block of [check_status]. *)
Definition check_github_pages : M W unit :=
  try_except
    (resp <- os_call (EHttpGet GITHUB_PAGES_URL 10) (http_get env GITHUB_PAGES_URL 10) ;;
     if status_code resp =? 200 then
       print_success "GitHub Pages is up and running"
     else
       print_warning ("GitHub Pages returned status code: " ++ str_int (status_code resp)))
    (except_Exception (fun e =>
       print_error ("Could not connect to GitHub Pages: " ++ exn_str e))).

(** The second [try] block of [check_status], with its inner [try]. *)
Definition check_heroku : M W unit :=
  try_except
    (resp <- os_call (EHttpGet HEROKU_API_HEALTH_URL 10)
                     (http_get env HEROKU_API_HEALTH_URL 10) ;;
     if status_code resp =? 200 then
       print_success "Heroku API is up and running" ;;
       try_except
         (match json_pretty resp with
          | inl dumped => print_info ("API Status: " ++ dumped)
          | inr text => raise (PyException text)
          end)
         (except_all (ret tt))
     else
       print_warning ("Heroku API returned status code: " ++ str_int (status_code resp)))
    (except_Exception (fun e =>
       print_error ("Could not connect to Heroku API: " ++ exn_str e))).

(** The end of [check_status], from its comment [# Check git status] on. *)
Definition report_git_status : M W unit :=
  '(stdout, _, _) <- run_command "git status -s" None true ;;
  match stdout with
  | Some text =>
      if truthy text then
        print_warning "You have uncommitted changes:" ;;
        print text
      else print_success "Git repository is clean"
  | None => print_success "Git repository is clean"
  end.

Definition check_status : M W unit :=
  print_header "Checking Deployment Status" ;;
  print_info "Checking GitHub Pages status..." ;;
  check_github_pages ;;
  print_info "Checking Heroku status..." ;;
  check_heroku ;;
  report_git_status.

Definition update_dependencies : M W unit :=
  print_header "Updating Dependencies" ;;
  print_info "Updating frontend dependencies..." ;;
  '(_, stderr, code) <- run_command "npm update" None false ;;
  (if negb (code =? 0) then
     print_error "Frontend dependency update failed:" ;;
     print stderr
   else print_success "Frontend dependencies updated") ;;
  print_info "Updating backend dependencies..." ;;
  '(_, stderr, code) <- run_command "npm update" (Some SERVER_DIR) false ;;
  if negb (code =? 0) then
    print_error "Backend dependency update failed:" ;;
    print stderr
  else print_success "Backend dependencies updated".

(** The loop [for file in untracked_files] of [create_backup]. *)
Fixpoint copy_untracked (backup_dir : string) (untracked_files : list string)
  : M W unit :=
  match untracked_files with
  | [] => ret tt
  | file :: rest =>
      (if truthy file then
         let dest_dir := join backup_dir (dirname file) in
         os_call (EMakeDirs dest_dir) (makedirs env dest_dir) ;;
         is_file <- os_read (isfile env file) ;;
         if is_file then
           os_call (ECopy2 file (join backup_dir file))
                   (copy2 env file (join backup_dir file))
         else ret tt
       else ret tt) ;;
      copy_untracked backup_dir rest
  end.

(** The body of the [try] of [create_backup]. *)
Definition backup_steps (backup_dir : string) : M W unit :=
  os_call (EMakeDirs backup_dir) (makedirs env backup_dir) ;;
  run_command ("git archive HEAD | tar -x -C " ++ backup_dir) None true ;;
  '(stdout, _, _) <- run_command "git ls-files --others --exclude-standard" None true ;;
  listing <- strip_attr stdout ;;
  copy_untracked backup_dir (split_lf listing) ;;
  let archive_name := backup_dir ++ ".tar.gz" in
  run_command ("tar -czf " ++ archive_name ++ " " ++ backup_dir) None true ;;
  os_call (ERmTree backup_dir) (rmtree env backup_dir) ;;
  print_success ("Backup created: " ++ archive_name).

(** The [try] statement of [create_backup]. *)
Definition guarded_backup (backup_dir : string) : M W unit :=
  try_except
    (backup_steps backup_dir)
    (except_Exception (fun e => print_error ("Backup failed: " ++ exn_str e))).

Definition create_backup : M W unit :=
  print_header "Creating Backup" ;;
  timestamp <- os_read (fun w => strftime_stamp (now env w)) ;;
  let backup_dir := "backup_" ++ timestamp in
  dirty <- check_git_status ;;
  (if dirty then
     print_warning "There are uncommitted changes. These will be included in the backup."
   else ret tt) ;;
  guarded_backup backup_dir.

Definition help_lines : list string :=
  [ header_line "Resume Improvement Tool Admin Script";
    "Available commands:";
    "  deploy-frontend   - Deploy frontend to GitHub Pages";
    "  deploy-backend    - Deploy backend to Heroku";
    "  deploy-all        - Deploy both frontend and backend";
    "  status            - Check status of deployments";
    "  update-deps       - Update npm dependencies";
    "  backup            - Create a project backup";
    "  help              - Show this help information";
    nl ++ "Usage: python admin.py [command]" ].

Definition show_help : M W unit :=
  print_header "Resume Improvement Tool Admin Script" ;;
  print "Available commands:" ;;
  print "  deploy-frontend   - Deploy frontend to GitHub Pages" ;;
  print "  deploy-backend    - Deploy backend to Heroku" ;;
  print "  deploy-all        - Deploy both frontend and backend" ;;
  print "  status            - Check status of deployments" ;;
  print "  update-deps       - Update npm dependencies" ;;
  print "  backup            - Create a project backup" ;;
  print "  help              - Show this help information" ;;
  print (nl ++ "Usage: python admin.py [command]").

(** The branch [elif command == "deploy-all"] of [main]. *)
Definition deploy_all : M W unit :=
  frontend_ok <- deploy_frontend ;;
  backend_ok <- deploy_backend ;;
  if frontend_ok && backend_ok then
    print_success "Both frontend and backend deployed successfully!"
  else
    print_warning "There were issues with the deployment. Check the logs above.".

(** [main()], with [sys.argv] as its argument. *)
Definition main (argv : list string) : M W unit :=
  match argv with
  | [] | [_] => show_help
  | _ :: arg :: _ =>
      let command := lower env arg in
      if String.eqb command "deploy-frontend" then deploy_frontend ;; ret tt
      else if String.eqb command "deploy-backend" then deploy_backend ;; ret tt
      else if String.eqb command "deploy-all" then deploy_all
      else if String.eqb command "status" then check_status
      else if String.eqb command "update-deps" then update_dependencies
      else if String.eqb command "backup" then create_backup
      else if existsb (String.eqb command) ["help"; "--help"; "-h"] then show_help
      else
        print_error ("Unknown command: " ++ command) ;;
        show_help
  end.

(** Running the script from a fresh log: the outcome of [main()] at the
    top level and the final state. *)
Definition run_script (argv : list string) (w : W) : outcome unit * state W :=
  main argv (mkState w []).

End Script.

(* ===================================================================== *)
(** ** A reference environment *)
(* ===================================================================== *)

(** A concrete host to run the script on: a git working tree kept in the
    project root, with the script started in that directory, so that the
    relative paths of the file-system calls and of the shell commands name
    the same files.  The tools follow their manuals on the commands the
    script issues:
    - [git archive HEAD | tar -x -C d] writes the files of the HEAD commit
      below [d];
    - [git ls-files --others --exclude-standard] lists, one per line, the
      files of the working tree that are neither tracked nor ignored;
    - [git push <remote> <branch>] updates the branch of that name on the
      remote with the local branch of that name;
    - [tar -czf a d] archives the files below [d] under their paths.
    Ignore rules are path prefixes, a commit is a number, and [status]
    prints one line per changed path.  A command listed in [scripted] ends
    the way the table says and does nothing else: this scripts the tools
    that are not modelled (npm, npx) and injects failures.  The arguments
    and the answers of the runs on this host are ASCII text, where
    [str.lower] is [lower_ascii]. *)
Module Sim.

Record host : Type := mkHost {
  files : list (string * string);       (* regular files: path, content *)
  dirs : list string;                   (* directories *)
  head_tree : list (string * string);   (* the files of the HEAD commit *)
  tracked : list string;                (* the paths in the index *)
  ignored : list string;                (* ignore rules: path prefixes *)
  branches : list (string * N);         (* local branches and their commits *)
  current_branch : string;
  remotes : list (string * list (string * N));
  tarballs : list (string * list (string * string));  (* archives written by tar *)
  answers : list string;                (* the lines waiting on standard input *)
  clock : datetime;
  web : string -> os_result response;
  scripted : list (string * completed);
  readonly : list string                (* paths that cannot be created or written *)
}.

Definition set_files (w : host) (f : list (string * string)) (d : list string) : host :=
  mkHost f d (head_tree w) (tracked w) (ignored w) (branches w) (current_branch w)
          (remotes w) (tarballs w) (answers w) (clock w) (web w) (scripted w) (readonly w).

Definition set_git (w : host) (h : list (string * string)) (t : list string)
    (b : list (string * N)) (r : list (string * list (string * N))) : host :=
  mkHost (files w) (dirs w) h t (ignored w) b (current_branch w)
          r (tarballs w) (answers w) (clock w) (web w) (scripted w) (readonly w).

Definition set_tarballs (w : host) (t : list (string * list (string * string))) : host :=
  mkHost (files w) (dirs w) (head_tree w) (tracked w) (ignored w) (branches w)
          (current_branch w) (remotes w) t (answers w) (clock w) (web w)
          (scripted w) (readonly w).

Definition set_answers (w : host) (a : list string) : host :=
  mkHost (files w) (dirs w) (head_tree w) (tracked w) (ignored w) (branches w)
          (current_branch w) (remotes w) (tarballs w) a (clock w) (web w)
          (scripted w) (readonly w).

Fixpoint lookup {A} (k : string) (l : list (string * A)) : option A :=
  match l with
  | [] => None
  | (k', v) :: r => if String.eqb k k' then Some v else lookup k r
  end.

Definition update {A} (k : string) (v : A) (l : list (string * A)) : list (string * A) :=
  (k, v) :: filter (fun kv => negb (String.eqb k (fst kv))) l.

Definition mem (k : string) (l : list string) : bool := existsb (String.eqb k) l.

(** [strip_prefix p s] is the rest of [s] after its prefix [p]. *)
Fixpoint strip_prefix (p s : string) : option string :=
  match p, s with
  | EmptyString, _ => Some s
  | String a p', String b s' => if Ascii.eqb a b then strip_prefix p' s' else None
  | _, EmptyString => None
  end.

Definition has_prefix (p s : string) : bool :=
  match strip_prefix p s with Some _ => true | None => false end.

Definition below (d path : string) : bool := has_prefix (d ++ "/") path.

Definition is_ignored (w : host) (path : string) : bool :=
  existsb (fun rule => has_prefix rule path) (ignored w).

Definition untracked (w : host) : list string :=
  filter (fun p => negb (mem p (tracked w)) && negb (is_ignored w p))
         (map fst (files w)).

Definition modified (w : host) : list string :=
  filter (fun p => match lookup p (files w), lookup p (head_tree w) with
                   | Some c, Some c' => negb (String.eqb c c')
                   | _, _ => true
                   end)
         (tracked w).

Definition lines (prefix : string) (l : list string) : string :=
  String.concat EmptyString (map (fun p => prefix ++ p ++ nl) l).

Definition ok (out : string) : completed := mkCompleted out EmptyString 0.
Definition failed (err : string) (rc : Z) : completed := mkCompleted EmptyString err rc.

Definition git_status (w : host) : completed * host :=
  (ok (lines " M " (modified w) ++ lines "?? " (untracked w)), w).

Definition git_add_all (w : host) : completed * host :=
  (ok EmptyString, set_git w (head_tree w) (tracked w ++ untracked w) (branches w) (remotes w)).

Definition next_commit (w : host) : N :=
  N.succ (fold_right N.max 0%N (map snd (branches w))).

Definition git_commit (w : host) : completed * host :=
  let staged := filter (fun kv => mem (fst kv) (tracked w)) (files w) in
  match modified w, filter (fun p => negb (mem p (map fst (head_tree w)))) (tracked w) with
  | [], [] => (mkCompleted "nothing to commit, working tree clean" EmptyString 1, w)
  | _, _ =>
      (ok EmptyString, set_git w staged (tracked w)
                (update (current_branch w) (next_commit w) (branches w)) (remotes w))
  end.

Definition git_push (remote branch : string) (w : host) : completed * host :=
  match lookup remote (remotes w), lookup branch (branches w) with
  | Some refs, Some commit =>
      (ok EmptyString, set_git w (head_tree w) (tracked w) (branches w)
                (update remote (update branch commit refs) (remotes w)))
  | None, _ =>
      (failed ("fatal: '" ++ remote ++ "' does not appear to be a git repository") 128, w)
  | _, None =>
      (failed ("error: src refspec " ++ branch ++ " does not match any") 1, w)
  end.

Definition git_archive_extract (d : string) (w : host) : completed * host :=
  if mem d (dirs w) then
    (ok EmptyString, set_files w
              (fold_right (fun kv f => update (d ++ "/" ++ fst kv) (snd kv) f)
                          (files w) (head_tree w))
              (dirs w))
  else (failed ("tar: " ++ d ++ ": Cannot open: No such file or directory") 2, w).

Definition git_ls_others (w : host) : completed * host :=
  (ok (lines EmptyString (untracked w)), w).

Definition tar_create (archive d : string) (w : host) : completed * host :=
  if mem d (dirs w) then
    (ok EmptyString, set_tarballs w
              (update archive (filter (fun kv => below d (fst kv)) (files w)) (tarballs w)))
  else (failed ("tar: " ++ d ++ ": Cannot stat: No such file or directory") 2, w).

(** The first blank-separated word of [s] and the rest. *)
Fixpoint word (s : string) : string * string :=
  match s with
  | EmptyString => (EmptyString, EmptyString)
  | String c r =>
      if Ascii.eqb c " "%char then (EmptyString, r)
      else let '(h, t) := word r in (String c h, t)
  end.

Definition shell (command : string) (w : host) : completed * host :=
  match lookup command (scripted w) with
  | Some result => (result, w)
  | None =>
      if String.eqb command "git status --porcelain" then git_status w
      else if String.eqb command "git status -s" then git_status w
      else if String.eqb command "git add ." then git_add_all w
      else if String.eqb command "git ls-files --others --exclude-standard"
      then git_ls_others w
      else if has_prefix "git commit -m " command then git_commit w
      else match strip_prefix "git push " command,
                 strip_prefix "git archive HEAD | tar -x -C " command,
                 strip_prefix "tar -czf " command with
           | Some args, _, _ => let '(remote, branch) := word args in git_push remote branch w
           | _, Some d, _ => git_archive_extract d w
           | _, _, Some args => let '(archive, d) := word args in tar_create archive d w
           | _, _, _ =>
               (failed ("/bin/sh: 1: " ++ fst (word command) ++ ": not found") 127, w)
           end
  end.

Definition sim_spawn (command cwd : string) (w : host) : os_result completed * host :=
  let '(result, w') := shell command w in (inl result, w').

Definition sim_read_input (prompt : string) (w : host) : os_result string * host :=
  match answers w with
  | [] => (inr "EOF when reading a line", w)
  | line :: rest => (inl line, set_answers w rest)
  end.

Definition sim_http_get (url : string) (timeout : Z) (w : host)
  : os_result response * host := (web w url, w).

Definition denied (path : string) : string :=
  "[Errno 13] Permission denied: '" ++ path ++ "'".

Definition missing (path : string) : string :=
  "[Errno 2] No such file or directory: '" ++ path ++ "'".

Definition sim_makedirs (path : string) (w : host) : os_result unit * host :=
  if mem path (readonly w) then (inr (denied path), w)
  else if mem path (dirs w) then (inl tt, w)
  else (inl tt, set_files w (files w) (path :: dirs w)).

Definition sim_isfile (path : string) (w : host) : bool :=
  match lookup path (files w) with Some _ => true | None => false end.

Definition sim_copy2 (src dst : string) (w : host) : os_result unit * host :=
  match lookup src (files w) with
  | None => (inr (missing src), w)
  | Some content =>
      if mem dst (readonly w) then (inr (denied dst), w)
      else (inl tt, set_files w (update dst content (files w)) (dirs w))
  end.

Definition sim_rmtree (path : string) (w : host) : os_result unit * host :=
  if mem path (readonly w) then (inr (denied path), w)
  else if mem path (dirs w) then
    (inl tt, set_files w
               (filter (fun kv => negb (below path (fst kv))) (files w))
               (filter (fun d => negb (String.eqb d path || below path d)) (dirs w)))
  else (inr (missing path), w).

Definition env : Env host :=
  mkEnv host sim_spawn sim_read_input sim_http_get sim_makedirs sim_isfile
        sim_copy2 sim_rmtree clock lower_ascii (fun s _ => eq_refl).

(** The project root of the reference runs. *)
Definition root : string := "/srv/app".

Definition unreachable (url : string) : os_result response :=
  inr ("Failed to establish a new connection: " ++ url).

(** A clean repository with one committed file, on branch [main], with
    the deployment remote configured, on 2024-01-02 at 03:04:05. *)
Definition clean_repo : host :=
  mkHost [("a.txt", "v1")] [] [("a.txt", "v1")] ["a.txt"] []
          [("main", 1%N)] "main" [("heroku", [("main", 0%N)])] []
          [] (mkDatetime 2024 1 2 3 4 5) unreachable [] [].

(** The same repository when the archive cannot be written. *)
Definition disk_full : host :=
  mkHost [("a.txt", "v1")] [] [("a.txt", "v1")] ["a.txt"] []
         [("main", 1%N)] "main" [("heroku", [("main", 0%N)])] []
         [] (mkDatetime 2024 1 2 3 4 5) unreachable
         [("tar -czf backup_20240102_030405.tar.gz backup_20240102_030405",
           failed "tar: backup_20240102_030405.tar.gz: Cannot write: No space left on device" 2)]
         [].

(** The same repository when the backup directory cannot be created. *)
Definition readonly_root : host :=
  mkHost [("a.txt", "v1")] [] [("a.txt", "v1")] ["a.txt"] []
         [("main", 1%N)] "main" [("heroku", [("main", 0%N)])] []
         [] (mkDatetime 2024 1 2 3 4 5) unreachable [] ["backup_20240102_030405"].

(** The committed file edited and not committed; [typed] waits on standard
    input and [table] scripts commands. *)
Definition dirty_repo (typed : list string) (table : list (string * completed)) : host :=
  mkHost [("a.txt", "v2")] [] [("a.txt", "v1")] ["a.txt"] []
         [("main", 1%N)] "main" [("heroku", [("main", 0%N)])] []
         typed (mkDatetime 2024 1 2 3 4 5) unreachable table [].

(** A clean repository with a second branch [dev], one commit ahead of
    [main], checked out. *)
Definition on_dev_branch : host :=
  mkHost [("a.txt", "v1")] [] [("a.txt", "v1")] ["a.txt"] []
         [("main", 1%N); ("dev", 2%N)] "dev" [("heroku", [("main", 0%N)])] []
         [] (mkDatetime 2024 1 2 3 4 5) unreachable [] [].

(** The commit a branch of a remote points to. *)
Definition remote_branch (remote branch : string) (w : host) : option N :=
  match lookup remote (remotes w) with
  | Some refs => lookup branch refs
  | None => None
  end.

(** The commit checked out. *)
Definition current_commit (w : host) : option N :=
  lookup (current_branch w) (branches w).

(** The endpoints answering: the pages with status [pages], the API with
    status [api] and a body that parses to [body] when given. *)
Definition answering (pages api : Z) (body : os_result string) (url : string)
  : os_result response :=
  if String.eqb url GITHUB_PAGES_URL then inl (mkResponse pages (inr "no body"))
  else if String.eqb url HEROKU_API_HEALTH_URL then inl (mkResponse api body)
  else unreachable url.

Definition online (pages api : Z) (body : os_result string) : host :=
  mkHost [("a.txt", "v1")] [] [("a.txt", "v1")] ["a.txt"] []
         [("main", 1%N)] "main" [("heroku", [("main", 0%N)])] []
         [] (mkDatetime 2024 1 2 3 4 5) (answering pages api body) [] [].

(** What a backup is meant to hold: the tracked and the untracked files
    of the working tree, with their content. *)
Definition working_tree_snapshot (w : host) : list (string * string) :=
  filter (fun kv => mem (fst kv) (tracked w) || mem (fst kv) (untracked w)) (files w).

(** An archive unpacked: its entries by their paths below the top
    directory [d]. *)
Definition unpacked (d : string) (entries : list (string * string))
  : list (string * string) :=
  flat_map (fun kv => match strip_prefix (d ++ "/") (fst kv) with
                      | Some relative => [(relative, snd kv)]
                      | None => []
                      end) entries.

(** The entries of the archive [name], none when it was not written. *)
Definition archive (name : string) (w : host) : list (string * string) :=
  match lookup name (tarballs w) with
  | Some entries => entries
  | None => []
  end.

(** A dirty tree, the answer [y], a message, and an index that is locked. *)
Definition locked_index : host :=
  dirty_repo ["y"; "fix typo"]
    [("git add .", failed "fatal: Unable to create '.git/index.lock': File exists." 128)].

(** A dirty tree and the answer [n]. *)
Definition declined : host := dirty_repo ["n"] [].

(** The backend deploy after its header. *)
Definition after_backend_header (w : host) : state host :=
  mkState w [EPrint (header_line "Deploying Backend to Heroku")].

(** The reference environment on a host where the server directory does
    not exist: a command cannot be started there. *)
Definition spawn_without_server (command cwd : string) (w : host)
  : os_result completed * host :=
  if String.eqb cwd (SERVER_DIR root) then (inr (missing cwd), w)
  else sim_spawn command cwd w.

Definition env_without_server : Env host :=
  mkEnv host spawn_without_server sim_read_input sim_http_get sim_makedirs sim_isfile
        sim_copy2 sim_rmtree clock lower_ascii (fun s _ => eq_refl).

(** A dirty tree and the answers [y] and a commit message. *)
Definition committing : host := dirty_repo ["y"; "fix typo"] [].

(** A dirty tree, the answer [No], and a build that is scripted. *)
Definition frontend_declined : host := dirty_repo ["No"] [].

(** A clean tree where the build works and the publication is refused. *)
Definition publish_refused : host :=
  mkHost [("a.txt", "v1")] [] [("a.txt", "v1")] ["a.txt"] []
         [("main", 1%N)] "main" [("heroku", [("main", 0%N)])] []
         [] (mkDatetime 2024 1 2 3 4 5) unreachable
         [("npm run build", ok "Compiled successfully.");
          ("npx gh-pages -d build -r git@github.com:HikingHacker/Resume-Improvement-App.git",
           failed "fatal: Could not read from remote repository." 128)]
         [].

(** The frontend deploy after its header. *)
Definition after_frontend_header (w : host) : state host :=
  mkState w [EPrint (header_line "Deploying Frontend to GitHub Pages")].

End Sim.

(* ===================================================================== *)
(** ** Vocabulary of the statements *)
(* ===================================================================== *)

(** The tokens [main] compares its lowercased argument with. *)
Definition known_commands : list string :=
  [ "deploy-frontend"; "deploy-backend"; "deploy-all"; "status";
    "update-deps"; "backup"; "help"; "--help"; "-h" ].

(** The command of the push step, and the texts of the backend's prompt. *)
Definition push_command : string := "git push heroku main".

Definition commit_prompt : string :=
  "Do you want to commit them before deployment? (y/n): ".

Definition uncommitted_warning : string :=
  warning_line "There are uncommitted changes in the repository.".

Definition message_prompt : string := "Enter commit message: ".

(** The last interactions of a run ended by the strict runner: the command,
    the failure line and the command's standard error. *)
Definition exit_trail {W} (root : string) (s : state W) : Prop :=
  exists command stderr rest,
    log s = EPrint stderr :: EPrint (error_line ("Command failed: " ++ command))
            :: ESpawn command root :: rest.

(** A computation whose only [SystemExit] is the [sys.exit(1)] of the strict
    runner. *)
Definition exits_only_strictly {W A} (root : string) (m : M W A) : Prop :=
  forall s, match m s with
            | (Raise (SystemExit code), s') => code = 1 /\ exit_trail root s'
            | _ => True
            end.

(** A decimal digit. *)
Definition is_digit (c : ascii) : bool :=
  let n := nat_of_ascii c in ((48 <=? n) && (n <=? 57))%nat.

Fixpoint all_digits (s : string) : bool :=
  match s with
  | EmptyString => true
  | String c r => is_digit c && all_digits r
  end.

(** [needle in hay] for two strings. *)
Definition contains (needle hay : string) : Prop :=
  exists before after, hay = before ++ needle ++ after.

(** The state a run starts in. *)
Definition fresh {W} (w : W) : state W := mkState w [].

(** The state after some more interactions. *)
Definition logged {W} (s : state W) (w : W) (recent : list event) : state W :=
  mkState w (recent ++ log s)%list.

(** A computation only ever adds to the log. *)
Definition extends_log {W A} (m : M W A) : Prop :=
  forall s, exists recent, log (snd (m s)) = (recent ++ log s)%list.

(** The three ways a strict run ends. *)
Inductive strict_run {W} (PROJECT_ROOT command : string) (s : state W)
  : outcome (option string * string * Z) * state W -> Prop :=
| strict_ok result w' :
    proc_returncode result = 0 ->
    strict_run PROJECT_ROOT command s
      (Ret (Some (strip (proc_stdout result)), strip (proc_stderr result), 0),
       logged s w' [ESpawn command PROJECT_ROOT])
| strict_exit result w' :
    proc_returncode result <> 0 ->
    strict_run PROJECT_ROOT command s
      (Raise (SystemExit 1),
       logged s w' [EPrint (proc_stderr result);
                    EPrint (error_line ("Command failed: " ++ command));
                    ESpawn command PROJECT_ROOT])
| strict_error text w' :
    strict_run PROJECT_ROOT command s
      (Raise (PyException text), logged s w' [ESpawn command PROJECT_ROOT]).

(** Every interaction a computation adds to the log satisfies [P]. *)
Definition only_events {W A} (P : event -> Prop) (m : M W A) : Prop :=
  forall s, exists recent,
    log (snd (m s)) = (recent ++ log s)%list /\ Forall P recent.

(** The name of a backup directory: [backup_] and a stamp of the clock. *)
Definition is_backup_dir (d : string) : Prop :=
  exists dt, d = "backup_" ++ strftime_stamp dt.

(** The interactions of each action: what it may print, ask, start, fetch
    and touch. *)
Definition help_event (ev : event) : Prop :=
  match ev with EPrint _ => True | _ => False end.

Definition frontend_event (root : string) (ev : event) : Prop :=
  match ev with
  | EPrint _ => True
  | EInput prompt => prompt = "Do you want to continue anyway? (y/n): "
  | ESpawn command cwd =>
      cwd = root
      /\ In command ["git status --porcelain"; "npm run build";
                     "npx gh-pages -d build -r " ++ GITHUB_REPO_URL]
  | _ => False
  end.

Definition backend_event (root : string) (ev : event) : Prop :=
  match ev with
  | EPrint _ => True
  | EInput prompt => prompt = commit_prompt \/ prompt = message_prompt
  | ESpawn command cwd =>
      cwd = root
      /\ (In command ["git status --porcelain"; "git add ."; push_command]
          \/ exists commit_msg, command = commit_command commit_msg)
  | _ => False
  end.

Definition status_event (root : string) (ev : event) : Prop :=
  match ev with
  | EPrint _ => True
  | EHttpGet url timeout =>
      timeout = 10 /\ (url = GITHUB_PAGES_URL \/ url = HEROKU_API_HEALTH_URL)
  | ESpawn command cwd => cwd = root /\ command = "git status -s"
  | _ => False
  end.

Definition update_event (root : string) (ev : event) : Prop :=
  match ev with
  | EPrint _ => True
  | ESpawn command cwd =>
      command = "npm update" /\ (cwd = root \/ cwd = SERVER_DIR root)
  | _ => False
  end.

Definition backup_event (root : string) (ev : event) : Prop :=
  match ev with
  | EPrint _ => True
  | ESpawn command cwd =>
      cwd = root
      /\ (In command ["git status --porcelain";
                      "git ls-files --others --exclude-standard"]
          \/ exists d, is_backup_dir d
                       /\ (command = "git archive HEAD | tar -x -C " ++ d
                           \/ command = "tar -czf " ++ (d ++ ".tar.gz") ++ " " ++ d))
  | EMakeDirs _ => True
  | ECopy2 _ _ => True
  | ERmTree path => is_backup_dir path
  | _ => False
  end.

(** The interactions of a run of the script, by its lowercased command. *)
Definition script_event (root command : string) (ev : event) : Prop :=
  if String.eqb command "deploy-frontend" then frontend_event root ev
  else if String.eqb command "deploy-backend" then backend_event root ev
  else if String.eqb command "deploy-all"
       then frontend_event root ev \/ backend_event root ev
  else if String.eqb command "status" then status_event root ev
  else if String.eqb command "update-deps" then update_event root ev
  else if String.eqb command "backup" then backup_event root ev
  else help_event ev.

(** The copies of the untracked files loop: each copy takes a listed,
    non-empty name to the same relative path below the backup directory,
    and each directory made is the one such a name lies in. *)
Definition copy_event (backup_dir : string) (names : list string) (ev : event) : Prop :=
  match ev with
  | EMakeDirs path =>
      exists file, In file names /\ file <> EmptyString
                   /\ path = join backup_dir (dirname file)
  | ECopy2 src dst =>
      In src names /\ src <> EmptyString /\ dst = join backup_dir src
  | _ => False
  end.

(** [not c in s] for a character. *)
Fixpoint free_of (c : ascii) (s : string) : bool :=
  match s with
  | EmptyString => true
  | String c' r => negb (Ascii.eqb c c') && free_of c r
  end.

(** The command a run dispatches on: the lowercased first argument, and
    [help] when there is none. *)
Definition command_of {W} (env : Env W) (argv : list string) : string :=
  match argv with
  | _ :: arg :: _ => lower env arg
  | _ => "help"
  end.

(** The shell commands of the script that are fixed texts. *)
Definition fixed_shell_commands : list string :=
  [ "git status --porcelain"; "git status -s"; "git add ."; push_command;
    "npm run build"; "npx gh-pages -d build -r " ++ GITHUB_REPO_URL;
    "npm update"; "git ls-files --others --exclude-standard" ].

(** A shell command of the script: a fixed text, the commit with its
    message, or the export into and the compression of a backup
    directory; started in the project root, or for [npm update] in the
    server directory. *)
Definition shell_event (root : string) (ev : event) : Prop :=
  match ev with
  | ESpawn command cwd =>
      (cwd = root \/ (command = "npm update" /\ cwd = SERVER_DIR root))
      /\ (In command fixed_shell_commands
          \/ (exists commit_msg, command = commit_command commit_msg)
          \/ exists d, is_backup_dir d
                       /\ (command = "git archive HEAD | tar -x -C " ++ d
                           \/ command = "tar -czf " ++ (d ++ ".tar.gz") ++ " " ++ d))
  | _ => True
  end.

(** The script's own calls of [input] belong to the deploy commands. *)
Definition input_event (command : string) (ev : event) : Prop :=
  match ev with
  | EInput _ => In command ["deploy-frontend"; "deploy-backend"; "deploy-all"]
  | _ => True
  end.

(** The script's own calls of [os.makedirs], [shutil.copy2] and
    [shutil.rmtree] belong to the backup command, and what [shutil.rmtree]
    is given is a backup directory. *)
Definition files_event (command : string) (ev : event) : Prop :=
  match ev with
  | EMakeDirs _ => command = "backup"
  | ECopy2 _ _ => command = "backup"
  | ERmTree path => command = "backup" /\ is_backup_dir path
  | _ => True
  end.

(** The script's own calls of [requests.get] belong to the status
    command: the two endpoints, with a timeout of ten seconds. *)
Definition http_event (command : string) (ev : event) : Prop :=
  match ev with
  | EHttpGet url timeout =>
      command = "status" /\ timeout = 10
      /\ (url = GITHUB_PAGES_URL \/ url = HEROKU_API_HEALTH_URL)
  | _ => True
  end.

(** The texts of the frontend deploy. *)
Definition continue_prompt : string := "Do you want to continue anyway? (y/n): ".

Definition publish_command : string :=
  "npx gh-pages -d build -r " ++ GITHUB_REPO_URL.

(** Anything but the removal of a directory tree. *)
Definition no_rmtree (ev : event) : Prop :=
  match ev with ERmTree _ => False | _ => True end.

(** The steps of the backup that come before its cleanup: [backup_steps]
    up to its comment [# Clean up]. *)
Definition steps_before_cleanup {W} (env : Env W) (root backup_dir : string) : M W unit :=
  os_call (EMakeDirs backup_dir) (makedirs env backup_dir) ;;
  run_command env root ("git archive HEAD | tar -x -C " ++ backup_dir) None true ;;
  '(stdout, _, _) <-
     run_command env root "git ls-files --others --exclude-standard" None true ;;
  listing <- strip_attr stdout ;;
  copy_untracked env backup_dir (split_lf listing) ;;
  run_command env root ("tar -czf " ++ (backup_dir ++ ".tar.gz") ++ " " ++ backup_dir)
              None true ;;
  ret tt.

(* ===================================================================== *)
(** ** Strings *)
(* ===================================================================== *)

Lemma append_assoc (a b c : string) : (a ++ b) ++ c = a ++ b ++ c.
Proof. induction a as [| ch a IH]; simpl; [ reflexivity | now rewrite IH ]. Qed.

Lemma append_length (a b : string) :
  String.length (a ++ b) = (String.length a + String.length b)%nat.
Proof. induction a as [| ch a IH]; simpl; [ reflexivity | now rewrite IH ]. Qed.

Lemma all_digits_append (a b : string) :
  all_digits (a ++ b) = all_digits a && all_digits b.
Proof.
  induction a as [| ch a IH]; simpl; [ reflexivity | ].
  now rewrite IH, andb_assoc.
Qed.

Lemma digit_char (k : N) : (k < 10)%N -> is_digit (ascii_of_N (48 + k)) = true.
Proof.
  intros Hk.
  assert (H : In k [0; 1; 2; 3; 4; 5; 6; 7; 8; 9]%N).
  { simpl.
    destruct (N.eq_dec k 0); [ auto | ]. destruct (N.eq_dec k 1); [ auto | ].
    destruct (N.eq_dec k 2); [ auto | ]. destruct (N.eq_dec k 3); [ auto 6 | ].
    destruct (N.eq_dec k 4); [ auto 7 | ]. destruct (N.eq_dec k 5); [ auto 8 | ].
    destruct (N.eq_dec k 6); [ auto 9 | ]. destruct (N.eq_dec k 7); [ auto 10 | ].
    destruct (N.eq_dec k 8); [ auto 11 | ]. destruct (N.eq_dec k 9); [ auto 12 | ].
    lia. }
  simpl in H.
  repeat (destruct H as [<- | H]; [ reflexivity | ]). contradiction.
Qed.

(** A [strftime] field: exactly [width] characters, all digits. *)
Lemma pad_digits_shape (width : nat) (n : N) :
  String.length (pad_digits width n) = width
  /\ all_digits (pad_digits width n) = true.
Proof.
  revert n. induction width as [| width IH]; intros n; cbn [pad_digits].
  - split; reflexivity.
  - destruct (IH (n / 10)%N) as [Hlen Hdig]. split.
    + rewrite append_length, Hlen. cbn [String.length]. lia.
    + rewrite all_digits_append, Hdig. cbn [all_digits andb].
      rewrite digit_char; [ reflexivity | ].
      apply N.mod_lt. discriminate.
Qed.

(** The stamp of the backup's name: eight digits, an underscore, six
    digits. *)
Lemma strftime_stamp_shape (dt : datetime) :
  exists date time,
    strftime_stamp dt = date ++ "_" ++ time
    /\ String.length date = 8%nat /\ all_digits date = true
    /\ String.length time = 6%nat /\ all_digits time = true.
Proof.
  exists (pad_digits 4 (dt_year dt) ++ pad_digits 2 (dt_month dt) ++ pad_digits 2 (dt_day dt)),
         (pad_digits 2 (dt_hour dt) ++ pad_digits 2 (dt_minute dt) ++ pad_digits 2 (dt_second dt)).
  unfold strftime_stamp.
  pose proof (pad_digits_shape 4 (dt_year dt)) as [L1 D1].
  pose proof (pad_digits_shape 2 (dt_month dt)) as [L2 D2].
  pose proof (pad_digits_shape 2 (dt_day dt)) as [L3 D3].
  pose proof (pad_digits_shape 2 (dt_hour dt)) as [L4 D4].
  pose proof (pad_digits_shape 2 (dt_minute dt)) as [L5 D5].
  pose proof (pad_digits_shape 2 (dt_second dt)) as [L6 D6].
  split; [ now rewrite !append_assoc | ].
  split; [ rewrite !append_length, L1, L2, L3; reflexivity | ].
  split; [ rewrite !all_digits_append, D1, D2, D3; reflexivity | ].
  split; [ rewrite !append_length, L4, L5, L6; reflexivity | ].
  rewrite !all_digits_append, D4, D5, D6. reflexivity.
Qed.

Example strftime_stamp_example :
  strftime_stamp (mkDatetime 2024 1 2 3 4 5) = "20240102_030405".
Proof. reflexivity. Qed.

Example lower_ascii_example : lower_ascii "Deploy-ALL" = "deploy-all".
Proof. reflexivity. Qed.

Example strip_example : strip (" M a.txt" ++ nl) = "M a.txt".
Proof. reflexivity. Qed.

Example split_lf_example :
  split_lf ("a.txt" ++ nl ++ "docs/b.txt") = ["a.txt"; "docs/b.txt"]
  /\ split_lf EmptyString = [EmptyString].
Proof. split; reflexivity. Qed.

Example dirname_join_example :
  dirname "docs/img/b.png" = "docs/img"
  /\ dirname "a.txt" = EmptyString
  /\ join "backup_x" (dirname "docs/img/b.png") = "backup_x/docs/img"
  /\ join "backup_x" (dirname "a.txt") = "backup_x/"
  /\ join "backup_x" "a.txt" = "backup_x/a.txt".
Proof. repeat split; reflexivity. Qed.

(* ===================================================================== *)
(** ** The execution monad *)
(* ===================================================================== *)

Section MonadFacts.

Context {W : Type}.

Lemma bind_ret {A B} (m : M W A) (k : A -> M W B) s a s' :
  m s = (Ret a, s') -> bind m k s = k a s'.
Proof. intros H. unfold bind. rewrite H. reflexivity. Qed.

Lemma bind_raise {A B} (m : M W A) (k : A -> M W B) s e s' :
  m s = (Raise e, s') -> bind m k s = (Raise e, s').
Proof. intros H. unfold bind. rewrite H. reflexivity. Qed.

Lemma try_except_ret {A} (m : M W A) h s a s' :
  m s = (Ret a, s') -> try_except m h s = (Ret a, s').
Proof. intros H. unfold try_except. rewrite H. reflexivity. Qed.

(** [sys.exit] passes through an [except Exception] clause. *)
Lemma try_except_Exception_SystemExit {A} (m : M W A) h s code s' :
  m s = (Raise (SystemExit code), s') ->
  try_except m (except_Exception h) s = (Raise (SystemExit code), s').
Proof. intros H. unfold try_except. rewrite H. reflexivity. Qed.

Lemma try_except_Exception_caught {A} (m : M W A) h s e s' :
  m s = (Raise e, s') -> is_Exception e = true ->
  try_except m (except_Exception h) s = h e s'.
Proof.
  intros H He. unfold try_except, except_Exception. rewrite H, He. reflexivity.
Qed.

Lemma bind_returns {A B} (m : M W A) (k : A -> M W B) s b s' :
  bind m k s = (Ret b, s') ->
  exists a s1, m s = (Ret a, s1) /\ k a s1 = (Ret b, s').
Proof.
  unfold bind. destruct (m s) as [[a | e] s1]; intros H.
  - exists a, s1. split; [ reflexivity | exact H ].
  - discriminate.
Qed.

Lemma extends_ret {A} (a : A) : extends_log (ret (W := W) a).
Proof. intros s. exists []. reflexivity. Qed.

Lemma extends_raise {A} e : extends_log (raise (W := W) (A := A) e).
Proof. intros s. exists []. reflexivity. Qed.

Lemma extends_emit ev : extends_log (emit (W := W) ev).
Proof. intros s. exists [ev]. reflexivity. Qed.

Lemma extends_os_call {A} ev (f : W -> os_result A * W) : extends_log (os_call ev f).
Proof.
  intros s. exists [ev]. unfold os_call.
  destruct (f (world s)) as [[a | text] w']; reflexivity.
Qed.

Lemma extends_os_read {A} (f : W -> A) : extends_log (os_read f).
Proof. intros s. exists []. reflexivity. Qed.

Lemma extends_bind {A B} (m : M W A) (k : A -> M W B) :
  extends_log m -> (forall a, extends_log (k a)) -> extends_log (bind m k).
Proof.
  intros Hm Hk s. unfold bind.
  destruct (Hm s) as [l1 H1].
  destruct (m s) as [[a | e] s1]; simpl in *.
  - destruct (Hk a s1) as [l2 H2]. exists (l2 ++ l1)%list.
    rewrite H2, H1. apply app_assoc.
  - exists l1. exact H1.
Qed.

Lemma extends_try_except {A} (m : M W A) h :
  extends_log m -> (forall e k, h e = Some k -> extends_log k) ->
  extends_log (try_except m h).
Proof.
  intros Hm Hh s. unfold try_except.
  destruct (Hm s) as [l1 H1].
  destruct (m s) as [[a | e] s1]; simpl in *.
  - exists l1. exact H1.
  - destruct (h e) as [k |] eqn:Hk; simpl.
    + destruct (Hh e k Hk s1) as [l2 H2]. exists (l2 ++ l1)%list.
      rewrite H2, H1. apply app_assoc.
    + exists l1. exact H1.
Qed.

Lemma extends_if {A} (b : bool) (m1 m2 : M W A) :
  extends_log m1 -> extends_log m2 -> extends_log (if b then m1 else m2).
Proof. destruct b; auto. Qed.

End MonadFacts.

Create HintDb extends.
#[export] Hint Resolve extends_ret extends_raise extends_emit extends_os_call
  extends_os_read : extends.

(** Log extension through the sequencing and branching of a computation. *)
Ltac extends :=
  unfold print_header, print_success, print_error, print_info, print_warning,
         print, input, sys_exit;
  repeat match goal with
         | |- extends_log (bind _ _) => apply extends_bind; [ | intros ? ]
         | |- extends_log (if _ then _ else _) => apply extends_if
         | |- extends_log (match ?x with _ => _ end) => destruct x
         | |- extends_log _ => solve [ auto with extends ]
         end.

(** Unfolding the monad: after [exec], a goal about a computation shows the
    environment calls it makes, ready to be rewritten or split on. *)
Ltac exec :=
  cbv beta iota zeta delta
    [bind ret raise try_except emit os_call os_read sys_exit
     except_Exception except_CalledProcessError except_all is_Exception
     print print_header print_success print_error print_info print_warning
     input subprocess_run logged];
  cbn [world log fst snd app].

(* ===================================================================== *)
(** ** The process runner *)
(* ===================================================================== *)

Section Runner.

Context {W : Type} (env : Env W) (PROJECT_ROOT : string).


(** A command that completes is reported back when the runner is lenient or
    the command succeeded. *)
Lemma run_command_returns command cwd check s result w' :
  spawn env command (cwd_or_root PROJECT_ROOT cwd) (world s) = (inl result, w') ->
  check = false \/ proc_returncode result = 0 ->
  run_command env PROJECT_ROOT command cwd check s =
    (Ret (Some (strip (proc_stdout result)), strip (proc_stderr result),
          proc_returncode result),
     logged s w' [ESpawn command (cwd_or_root PROJECT_ROOT cwd)]).
Proof.
  intros Hspawn Hok.
  unfold run_command. exec. rewrite Hspawn. exec.
  destruct Hok as [-> | Hrc].
  - reflexivity.
  - replace (proc_returncode result =? 0) with true by (symmetry; now apply Z.eqb_eq).
    rewrite andb_false_r. reflexivity.
Qed.

(** A strict run of a command that exits non-zero ends in [sys.exit(1)],
    after the failure line and the captured standard error. *)
Lemma run_command_strict_failure command cwd s result w' :
  spawn env command (cwd_or_root PROJECT_ROOT cwd) (world s) = (inl result, w') ->
  proc_returncode result <> 0 ->
  run_command env PROJECT_ROOT command cwd true s =
    (Raise (SystemExit 1),
     logged s w' [EPrint (proc_stderr result);
                  EPrint (error_line ("Command failed: " ++ command));
                  ESpawn command (cwd_or_root PROJECT_ROOT cwd)]).
Proof.
  intros Hspawn Hrc.
  unfold run_command. exec. rewrite Hspawn. exec.
  apply Z.eqb_neq in Hrc. rewrite Hrc. reflexivity.
Qed.

(** A command that cannot be started: the exception of the spawn goes
    through the runner, whose handler is for [CalledProcessError] only. *)
Lemma run_command_spawn_error command cwd check s text w' :
  spawn env command (cwd_or_root PROJECT_ROOT cwd) (world s) = (inr text, w') ->
  run_command env PROJECT_ROOT command cwd check s =
    (Raise (PyException text), logged s w' [ESpawn command (cwd_or_root PROJECT_ROOT cwd)]).
Proof.
  intros Hspawn.
  unfold run_command. exec. rewrite Hspawn. reflexivity.
Qed.

Lemma run_command_strict_cases command s :
  strict_run PROJECT_ROOT command s (run_command env PROJECT_ROOT command None true s).
Proof.
  destruct (spawn env command PROJECT_ROOT (world s)) as [[result | text] w'] eqn:Hspawn.
  - destruct (Z.eq_dec (proc_returncode result) 0) as [Hrc | Hrc].
    + rewrite (run_command_returns _ None _ _ _ _ Hspawn (or_intror Hrc)).
      rewrite Hrc. now apply strict_ok.
    + rewrite (run_command_strict_failure _ None _ _ _ Hspawn Hrc).
      now constructor.
  - rewrite (run_command_spawn_error _ None _ _ _ _ Hspawn). constructor.
Qed.

(** C2. For a shell command that runs and exits with a non-zero code: under
    the strict flag the runner prints the failure line and the captured
    standard error and raises [SystemExit(1)], which ends the program with
    exit code 1; without the flag (whatever the exit code) it returns the
    triple of the captured standard output and standard error, both
    stripped of surrounding whitespace, and the exit code, and prints
    nothing. *)
Theorem run_command_exit_handling command cwd s result w' :
  spawn env command (cwd_or_root PROJECT_ROOT cwd) (world s) = (inl result, w') ->
  (proc_returncode result <> 0 ->
   run_command env PROJECT_ROOT command cwd true s =
     (Raise (SystemExit 1),
      logged s w' [EPrint (proc_stderr result);
                   EPrint (error_line ("Command failed: " ++ command));
                   ESpawn command (cwd_or_root PROJECT_ROOT cwd)])
   /\ exit_code (fst (run_command env PROJECT_ROOT command cwd true s)) = 1)
  /\ run_command env PROJECT_ROOT command cwd false s =
       (Ret (Some (strip (proc_stdout result)), strip (proc_stderr result),
             proc_returncode result),
        logged s w' [ESpawn command (cwd_or_root PROJECT_ROOT cwd)]).
Proof.
  intros Hspawn. split.
  - intros Hrc.
    rewrite (run_command_strict_failure _ _ _ _ _ Hspawn Hrc).
    split; reflexivity.
  - apply run_command_returns; auto.
Qed.

Lemma extends_run_command command cwd check :
  extends_log (run_command env PROJECT_ROOT command cwd check).
Proof.
  unfold run_command, subprocess_run.
  apply extends_try_except.
  - extends.
  - intros e k He. destruct e; simpl in He; try discriminate.
    injection He as <-. extends.
Qed.

End Runner.

#[export] Hint Resolve extends_run_command : extends.

(** Stepping over a call of the runner whose command completed ([run_ok]:
    leniently, or with exit code 0), exited non-zero under the strict flag
    ([run_exit]) or could not be started ([run_error]), from the fact [H]
    about the spawn. *)
Ltac run_ok H :=
  erewrite run_command_returns;
  [ | cbn [cwd_or_root world]; exact H | auto ]; exec.

Ltac run_exit H Hrc :=
  erewrite run_command_strict_failure;
  [ | cbn [cwd_or_root world]; exact H | exact Hrc ]; exec.

Ltac run_error H :=
  erewrite run_command_spawn_error;
  [ | cbn [cwd_or_root world]; exact H ]; exec.

(* ===================================================================== *)
(** ** The dispatcher and the help table *)
(* ===================================================================== *)

Section Dispatcher.

Context {W : Type} (env : Env W) (PROJECT_ROOT : string).

(** [show_help] prints the ten lines of the help table and nothing else,
    and leaves the world alone. *)
Lemma show_help_prints (s : state W) :
  show_help s = (Ret tt, logged s (world s) (List.rev (map EPrint help_lines))).
Proof. reflexivity. Qed.

(** [str.lower] leaves a token of lowercase ASCII as it is. *)
Lemma lower_fixes (token : string) :
  is_ascii token = true -> lower_ascii token = token -> lower env token = token.
Proof. intros Hascii Hfix. now rewrite (lower_on_ascii env token Hascii). Qed.

(** The branches of [main] on the literal commands. *)
Lemma main_help (prog : string) (s : state W) :
  main env PROJECT_ROOT [prog; "help"] s = show_help s.
Proof. unfold main. rewrite (lower_fixes "help") by reflexivity. reflexivity. Qed.

Lemma main_deploy_frontend (prog : string) (s : state W) :
  main env PROJECT_ROOT [prog; "deploy-frontend"] s
  = bind (deploy_frontend env PROJECT_ROOT) (fun _ => ret tt) s.
Proof.
  unfold main. rewrite (lower_fixes "deploy-frontend") by reflexivity. reflexivity.
Qed.

Lemma main_deploy_backend (prog : string) (s : state W) :
  main env PROJECT_ROOT [prog; "deploy-backend"] s
  = bind (deploy_backend env PROJECT_ROOT) (fun _ => ret tt) s.
Proof.
  unfold main. rewrite (lower_fixes "deploy-backend") by reflexivity. reflexivity.
Qed.

Lemma main_update_deps (prog : string) (s : state W) :
  main env PROJECT_ROOT [prog; "update-deps"] s = update_dependencies env PROJECT_ROOT s.
Proof.
  unfold main. rewrite (lower_fixes "update-deps") by reflexivity. reflexivity.
Qed.

Lemma main_backup (prog : string) (s : state W) :
  main env PROJECT_ROOT [prog; "backup"] s = create_backup env PROJECT_ROOT s.
Proof. unfold main. rewrite (lower_fixes "backup") by reflexivity. reflexivity. Qed.

(** A token outside the known set fails every comparison of [main]. *)
Lemma unknown_command_tests command :
  ~ In command known_commands ->
  String.eqb command "deploy-frontend" = false
  /\ String.eqb command "deploy-backend" = false
  /\ String.eqb command "deploy-all" = false
  /\ String.eqb command "status" = false
  /\ String.eqb command "update-deps" = false
  /\ String.eqb command "backup" = false
  /\ existsb (String.eqb command) ["help"; "--help"; "-h"] = false.
Proof.
  intros Hnot.
  assert (Hne : forall k, In k known_commands -> String.eqb command k = false).
  { intros k Hk. apply String.eqb_neq. intros ->. exact (Hnot Hk). }
  unfold known_commands in Hne. simpl in Hne.
  repeat split; try (apply Hne; tauto).
  simpl. rewrite !Hne by tauto. reflexivity.
Qed.

(** C7. With no argument the script writes exactly what it writes for the
    [help] command, byte for byte: the help table; both runs end normally,
    so the process exits with code 0. *)
Theorem no_argument_is_help (prog : string) (w : W) :
  let bare := run_script env PROJECT_ROOT [prog] w in
  let help := run_script env PROJECT_ROOT [prog; "help"] w in
  stdout_text (snd bare) = stdout_text (snd help)
  /\ stdout_text (snd bare) = stdout_of (map EPrint help_lines)
  /\ bare = help
  /\ exit_code (fst bare) = 0
  /\ exit_code (fst help) = 0.
Proof.
  cbv zeta. unfold run_script. rewrite main_help. repeat split.
Qed.

(** C4. For a first argument whose lowercase form is none of the known
    commands, the script prints the error line naming that (lowercased)
    command, then the help table, touches nothing else, and ends normally:
    exit code 0. *)
Theorem unknown_command_shows_help (prog arg : string) (rest : list string) (w : W) :
  ~ In (lower env arg) known_commands ->
  let run := run_script env PROJECT_ROOT (prog :: arg :: rest) w in
  run = (Ret tt,
         mkState w (List.rev (map EPrint
                      (error_line ("Unknown command: " ++ lower env arg) :: help_lines))))
  /\ contains (lower env arg) (error_line ("Unknown command: " ++ lower env arg))
  /\ stdout_text (snd run) =
       error_line ("Unknown command: " ++ lower env arg) ++ nl
       ++ stdout_of (map EPrint help_lines)
  /\ exit_code (fst run) = 0.
Proof.
  intros Hnot.
  destruct (unknown_command_tests _ Hnot) as (H1 & H2 & H3 & H4 & H5 & H6 & H7).
  assert (Hrun : run_script env PROJECT_ROOT (prog :: arg :: rest) w =
                 (Ret tt,
                  mkState w (List.rev (map EPrint
                    (error_line ("Unknown command: " ++ lower env arg) :: help_lines))))).
  { unfold run_script, main. rewrite H1, H2, H3, H4, H5, H6, H7. reflexivity. }
  cbv zeta. rewrite Hrun. repeat split.
  exists (Colors.RED ++ "✗ Unknown command: "), Colors.ENDC. reflexivity.
Qed.

End Dispatcher.

(* ===================================================================== *)
(** ** The deployment commands *)
(* ===================================================================== *)

Lemma bind_assoc {W A B C} (m : M W A) (k : A -> M W B) (k' : B -> M W C) s :
  bind (bind m k) k' s = bind m (fun a => bind (k a) k') s.
Proof. unfold bind. destruct (m s) as [[a | e] s1]; reflexivity. Qed.

Section Deploy.

Context {W : Type} (env : Env W) (PROJECT_ROOT : string).

Lemma push_command_eq : "git push " ++ HEROKU_REMOTE ++ " main" = push_command.
Proof. reflexivity. Qed.

Lemma extends_check_git_status : extends_log (check_git_status env PROJECT_ROOT).
Proof. unfold check_git_status, strip_attr. extends. Qed.

Lemma extends_commit_changes : extends_log (commit_changes env PROJECT_ROOT).
Proof. unfold commit_changes. extends. Qed.

Lemma extends_push_to_heroku : extends_log (push_to_heroku env PROJECT_ROOT).
Proof. unfold push_to_heroku. extends. Qed.

(** The push step, once its command has run: success is a zero exit code. *)
Lemma push_to_heroku_completed s result w' :
  spawn env push_command PROJECT_ROOT (world s) = (inl result, w') ->
  push_to_heroku env PROJECT_ROOT s =
    if proc_returncode result =? 0 then
      (Ret true,
       logged s w' [EPrint (info_line ("Backend API URL: " ++ HEROKU_URL));
                    EPrint (success_line "Backend deployed to Heroku");
                    ESpawn push_command PROJECT_ROOT;
                    EPrint (info_line "Deploying to Heroku...")])
    else
      (Ret false,
       logged s w' [EPrint (strip (proc_stderr result));
                    EPrint (error_line "Heroku deployment failed:");
                    ESpawn push_command PROJECT_ROOT;
                    EPrint (info_line "Deploying to Heroku...")]).
Proof.
  intros Hspawn. unfold push_to_heroku. rewrite push_command_eq. exec.
  run_ok Hspawn.
  destruct (proc_returncode result =? 0); reflexivity.
Qed.

(** Whatever happens, the push step starts the push command, and no other
    command. *)
Lemma push_to_heroku_spawns s :
  exists recent,
    log (snd (push_to_heroku env PROJECT_ROOT s)) = (recent ++ log s)%list
    /\ commands_of (List.rev recent) = [push_command].
Proof.
  destruct (spawn env push_command PROJECT_ROOT (world s)) as [[result | text] w'] eqn:Hspawn.
  - rewrite (push_to_heroku_completed s result w') by exact Hspawn.
    destruct (proc_returncode result =? 0);
      eexists (_ :: _ :: _ :: _ :: []); split; reflexivity.
  - unfold push_to_heroku. rewrite push_command_eq. exec.
    run_error Hspawn.
    eexists (_ :: _ :: []); split; reflexivity.
Qed.

(** The backend deploy always starts by printing its header, and only adds
    to the log after it. *)
Lemma deploy_backend_header s :
  exists recent,
    log (snd (deploy_backend env PROJECT_ROOT s)) =
    (recent ++ EPrint (header_line "Deploying Backend to Heroku") :: log s)%list.
Proof.
  unfold deploy_backend, offer_commit. rewrite bind_assoc.
  erewrite bind_ret by reflexivity.
  match goal with
  | |- context [bind ?m ?k ?s1] =>
      assert (He : extends_log (bind m k))
  end.
  { apply extends_bind.
    - apply extends_bind; [ apply extends_check_git_status | intros dirty ].
      destruct dirty; [ | extends ].
      extends. apply extends_commit_changes.
    - intros _. apply extends_push_to_heroku. }
  destruct (He (mkState (world s)
                  (EPrint (header_line "Deploying Backend to Heroku") :: log s)))
    as [recent Hrecent].
  exists recent. exact Hrecent.
Qed.

(** When the offer to commit raises, so does the backend deploy, at once. *)
Lemma deploy_backend_raises s e s' :
  offer_commit env PROJECT_ROOT s = (Raise e, s') ->
  deploy_backend env PROJECT_ROOT s = (Raise e, s').
Proof. intros H. unfold deploy_backend. now apply bind_raise. Qed.

(** C3. In the [deploy-all] command, whenever the frontend deploy returns
    (true or false), the backend deploy is run next, from the state the
    frontend left: its header is printed; and when it returns in turn, the
    last line printed is the all-success message exactly when both
    returned true, and the warning otherwise. *)
Theorem deploy_all_runs_both (prog arg : string) (rest : list string) s frontend_ok s1 :
  lower env arg = "deploy-all" ->
  deploy_frontend env PROJECT_ROOT s = (Ret frontend_ok, s1) ->
  exists backend s2,
    deploy_backend env PROJECT_ROOT s1 = (backend, s2)
    /\ (exists recent,
          log s2 = (recent ++ EPrint (header_line "Deploying Backend to Heroku")
                             :: log s1)%list)
    /\ main env PROJECT_ROOT (prog :: arg :: rest) s =
         match backend with
         | Ret backend_ok =>
             (Ret tt,
              logged s2 (world s2)
                [EPrint (if frontend_ok && backend_ok
                         then success_line "Both frontend and backend deployed successfully!"
                         else warning_line
                                "There were issues with the deployment. Check the logs above.")])
         | Raise e => (Raise e, s2)
         end.
Proof.
  intros Harg Hfront.
  destruct (deploy_backend env PROJECT_ROOT s1) as [backend s2] eqn:Hback.
  exists backend, s2. split; [ reflexivity | split ].
  - destruct (deploy_backend_header s1) as [recent Hrecent].
    rewrite Hback in Hrecent. exists recent. exact Hrecent.
  - unfold main. rewrite Harg. cbn [String.eqb Ascii.eqb Bool.eqb].
    unfold deploy_all. rewrite (bind_ret _ _ _ _ _ Hfront).
    destruct backend as [backend_ok | e].
    + rewrite (bind_ret _ _ _ _ _ Hback).
      destruct (frontend_ok && backend_ok); reflexivity.
    + now rewrite (bind_raise _ _ _ _ _ Hback).
Qed.

(** C8 (as amended). After the offer to commit, the backend deploy runs
    the fixed command [git push heroku main] from the project root without
    the strict flag: the local branch [main] is pushed to the remote
    [heroku], whichever branch is checked out.  When the command exits
    non-zero the step prints the failure line and the captured standard
    error and returns false; when it exits with zero it prints the success
    line and the backend URL and returns true. *)
Theorem backend_push_step s s1 result w' :
  offer_commit env PROJECT_ROOT s = (Ret tt, s1) ->
  spawn env ("git push " ++ HEROKU_REMOTE ++ " main") PROJECT_ROOT (world s1)
    = (inl result, w') ->
  "git push " ++ HEROKU_REMOTE ++ " main" = "git push heroku main"
  /\ deploy_backend env PROJECT_ROOT s =
       if proc_returncode result =? 0 then
         (Ret true,
          logged s1 w' [EPrint (info_line ("Backend API URL: " ++ HEROKU_URL));
                        EPrint (success_line "Backend deployed to Heroku");
                        ESpawn "git push heroku main" PROJECT_ROOT;
                        EPrint (info_line "Deploying to Heroku...")])
       else
         (Ret false,
          logged s1 w' [EPrint (strip (proc_stderr result));
                        EPrint (error_line "Heroku deployment failed:");
                        ESpawn "git push heroku main" PROJECT_ROOT;
                        EPrint (info_line "Deploying to Heroku...")]).
Proof.
  intros Hoffer Hspawn. split; [ reflexivity | ].
  unfold deploy_backend. rewrite (bind_ret _ _ _ _ _ Hoffer).
  now apply push_to_heroku_completed.
Qed.

(** C10. When the tree is dirty and the answer to the commit prompt is not
    [y] (compared in lowercase), the offer to commit returns without
    running [git add] or [git commit], and the backend deploy goes on with
    the push step: the push command is the only command started after the
    prompt. *)
Theorem declined_commit_still_pushes s s1 answer w2 :
  check_git_status env PROJECT_ROOT
    (logged s (world s) [EPrint (header_line "Deploying Backend to Heroku")])
    = (Ret true, s1) ->
  read_input env commit_prompt (world s1) = (inl answer, w2) ->
  lower env answer <> "y" ->
  let s2 := logged s1 w2 [EInput commit_prompt; EPrint uncommitted_warning] in
  offer_commit env PROJECT_ROOT s = (Ret tt, s2)
  /\ deploy_backend env PROJECT_ROOT s = push_to_heroku env PROJECT_ROOT s2
  /\ exists recent,
       log (snd (deploy_backend env PROJECT_ROOT s)) = (recent ++ log s2)%list
       /\ commands_of (List.rev recent) = ["git push heroku main"].
Proof.
  intros Hdirty Hanswer Hno s2.
  assert (Hoffer : offer_commit env PROJECT_ROOT s = (Ret tt, s2)).
  { unfold offer_commit. erewrite bind_ret by reflexivity.
    rewrite (bind_ret _ _ _ _ _ Hdirty). exec.
    fold commit_prompt. rewrite Hanswer.
    apply String.eqb_neq in Hno. rewrite Hno. reflexivity. }
  assert (Hdeploy : deploy_backend env PROJECT_ROOT s = push_to_heroku env PROJECT_ROOT s2).
  { unfold deploy_backend. now rewrite (bind_ret _ _ _ _ _ Hoffer). }
  repeat split; try assumption.
  rewrite Hdeploy. apply push_to_heroku_spawns.
Qed.

(** C9. In the stage-and-commit step (dirty tree, answer [y], a message
    typed) [git add .] and [git commit] run under the strict flag: when
    either exits non-zero the runner prints the failure and raises
    [SystemExit(1)]; the backend deploy returns nothing (neither true nor
    false), nothing more is run (no commit after a failed add, no push),
    and the [deploy-backend] command ends with exit code 1. *)
Theorem commit_stage_is_strict (prog : string) s s1 answer w2 commit_msg w3 added w4 :
  check_git_status env PROJECT_ROOT
    (logged s (world s) [EPrint (header_line "Deploying Backend to Heroku")])
    = (Ret true, s1) ->
  read_input env commit_prompt (world s1) = (inl answer, w2) ->
  lower env answer = "y" ->
  read_input env message_prompt w2 = (inl commit_msg, w3) ->
  spawn env "git add ." PROJECT_ROOT w3 = (inl added, w4) ->
  let s3 := logged s1 w3 [EInput message_prompt; EInput commit_prompt;
                          EPrint uncommitted_warning] in
  (proc_returncode added <> 0 ->
   deploy_backend env PROJECT_ROOT s =
     (Raise (SystemExit 1),
      logged s3 w4 [EPrint (proc_stderr added);
                    EPrint (error_line "Command failed: git add .");
                    ESpawn "git add ." PROJECT_ROOT])
   /\ exit_code (fst (main env PROJECT_ROOT [prog; "deploy-backend"] s)) = 1)
  /\ (proc_returncode added = 0 ->
      forall committed w5,
        spawn env (commit_command commit_msg) PROJECT_ROOT w4 = (inl committed, w5) ->
        proc_returncode committed <> 0 ->
        deploy_backend env PROJECT_ROOT s =
          (Raise (SystemExit 1),
           logged s3 w5 [EPrint (proc_stderr committed);
                         EPrint (error_line ("Command failed: " ++ commit_command commit_msg));
                         ESpawn (commit_command commit_msg) PROJECT_ROOT;
                         ESpawn "git add ." PROJECT_ROOT])
        /\ exit_code (fst (main env PROJECT_ROOT [prog; "deploy-backend"] s)) = 1).
Proof.
  intros Hdirty Hanswer Hyes Hmsg Hadd s3.
  assert (Hstart : forall r,
            commit_changes env PROJECT_ROOT
              (logged s1 w2 [EInput commit_prompt; EPrint uncommitted_warning]) = r ->
            offer_commit env PROJECT_ROOT s = r).
  { intros r <-. unfold offer_commit. erewrite bind_ret by reflexivity.
    rewrite (bind_ret _ _ _ _ _ Hdirty). exec.
    fold commit_prompt. rewrite Hanswer, Hyes. reflexivity. }
  assert (Hmain : forall s', deploy_backend env PROJECT_ROOT s = (Raise (SystemExit 1), s') ->
                  exit_code (fst (main env PROJECT_ROOT [prog; "deploy-backend"] s)) = 1).
  { intros s' H.
    rewrite main_deploy_backend.
    now rewrite (bind_raise _ _ _ _ _ H). }
  split.
  - intros Hrc.
    assert (H : deploy_backend env PROJECT_ROOT s =
                (Raise (SystemExit 1),
                 logged s3 w4 [EPrint (proc_stderr added);
                               EPrint (error_line "Command failed: git add .");
                               ESpawn "git add ." PROJECT_ROOT])).
    { apply deploy_backend_raises, Hstart.
      unfold commit_changes. exec. fold message_prompt. rewrite Hmsg. exec.
      run_exit Hadd Hrc. reflexivity. }
    split; [ exact H | exact (Hmain _ H) ].
  - intros Hrc committed w5 Hcommit Hrc'.
    assert (H : deploy_backend env PROJECT_ROOT s =
                (Raise (SystemExit 1),
                 logged s3 w5 [EPrint (proc_stderr committed);
                               EPrint (error_line ("Command failed: " ++ commit_command commit_msg));
                               ESpawn (commit_command commit_msg) PROJECT_ROOT;
                               ESpawn "git add ." PROJECT_ROOT])).
    { apply deploy_backend_raises, Hstart.
      unfold commit_changes. exec. fold message_prompt. rewrite Hmsg. exec.
      run_ok Hadd. run_exit Hcommit Hrc'. reflexivity. }
    split; [ exact H | exact (Hmain _ H) ].
Qed.

End Deploy.

(* ===================================================================== *)
(** ** The status command *)
(* ===================================================================== *)

Section Status.

Context {W : Type} (env : Env W) (PROJECT_ROOT : string).

(** A text interpolated at the end of a coloured line is part of it. *)
Lemma contains_in_line (color mark label text : string) :
  contains text (color ++ mark ++ (label ++ text) ++ Colors.ENDC).
Proof.
  exists (color ++ mark ++ label), Colors.ENDC.
  now rewrite !append_assoc.
Qed.

(** The GitHub Pages check: one request, one line, never an exception. *)
Lemma check_github_pages_report (s : state W) :
  match http_get env GITHUB_PAGES_URL 10 (world s) with
  | (inl resp, w') =>
      check_github_pages env s =
        (Ret tt,
         logged s w'
           [EPrint (if status_code resp =? 200
                    then success_line "GitHub Pages is up and running"
                    else warning_line ("GitHub Pages returned status code: "
                                       ++ str_int (status_code resp)));
            EHttpGet GITHUB_PAGES_URL 10])
  | (inr text, w') =>
      check_github_pages env s =
        (Ret tt,
         logged s w'
           [EPrint (error_line ("Could not connect to GitHub Pages: " ++ text));
            EHttpGet GITHUB_PAGES_URL 10])
  end.
Proof.
  unfold check_github_pages. exec.
  destruct (http_get env GITHUB_PAGES_URL 10 (world s)) as [[resp | text] w'].
  - destruct (status_code resp =? 200); reflexivity.
  - reflexivity.
Qed.

(** The Heroku check: as above, and after a 200 the pretty-printed body
    when it parses, nothing when it does not. *)
Lemma check_heroku_report (s : state W) :
  match http_get env HEROKU_API_HEALTH_URL 10 (world s) with
  | (inl resp, w') =>
      check_heroku env s =
        (Ret tt,
         logged s w'
           (if status_code resp =? 200 then
              match json_pretty resp with
              | inl dumped =>
                  [EPrint (info_line ("API Status: " ++ dumped));
                   EPrint (success_line "Heroku API is up and running");
                   EHttpGet HEROKU_API_HEALTH_URL 10]
              | inr _ =>
                  [EPrint (success_line "Heroku API is up and running");
                   EHttpGet HEROKU_API_HEALTH_URL 10]
              end
            else
              [EPrint (warning_line ("Heroku API returned status code: "
                                     ++ str_int (status_code resp)));
               EHttpGet HEROKU_API_HEALTH_URL 10]))
  | (inr text, w') =>
      check_heroku env s =
        (Ret tt,
         logged s w'
           [EPrint (error_line ("Could not connect to Heroku API: " ++ text));
            EHttpGet HEROKU_API_HEALTH_URL 10])
  end.
Proof.
  unfold check_heroku. exec.
  destruct (http_get env HEROKU_API_HEALTH_URL 10 (world s)) as [[resp | text] w'].
  - destruct (status_code resp =? 200); [ | reflexivity ].
    destruct (json_pretty resp); reflexivity.
  - reflexivity.
Qed.

(** C5. Each of the two health checks of the status command makes one
    request and always returns: after a 200 it prints its success line;
    after any other status code a warning that contains the code; after an
    exception of the request an error line that contains the exception's
    text.  After a 200 the Heroku check also prints the pretty-printed
    body, and prints nothing for a body that does not parse.  So the status
    command always reaches its last step, the report of the git status. *)
Theorem status_health_checks :
  (forall s : state W,
     exists line w',
       check_github_pages env s =
         (Ret tt, logged s w' [EPrint line; EHttpGet GITHUB_PAGES_URL 10])
       /\ match fst (http_get env GITHUB_PAGES_URL 10 (world s)) with
          | inl resp =>
              if status_code resp =? 200
              then line = success_line "GitHub Pages is up and running"
              else line = warning_line ("GitHub Pages returned status code: "
                                        ++ str_int (status_code resp))
                   /\ contains (str_int (status_code resp)) line
          | inr text =>
              line = error_line ("Could not connect to GitHub Pages: " ++ text)
              /\ contains text line
          end)
  /\ (forall s : state W,
        exists line parsed w',
          check_heroku env s =
            (Ret tt, logged s w' (parsed ++ [EPrint line; EHttpGet HEROKU_API_HEALTH_URL 10]))
          /\ match fst (http_get env HEROKU_API_HEALTH_URL 10 (world s)) with
             | inl resp =>
                 if status_code resp =? 200
                 then line = success_line "Heroku API is up and running"
                      /\ parsed = match json_pretty resp with
                                  | inl dumped => [EPrint (info_line ("API Status: " ++ dumped))]
                                  | inr _ => []
                                  end
                 else line = warning_line ("Heroku API returned status code: "
                                           ++ str_int (status_code resp))
                      /\ contains (str_int (status_code resp)) line
                      /\ parsed = []
             | inr text =>
                 line = error_line ("Could not connect to Heroku API: " ++ text)
                 /\ contains text line /\ parsed = []
             end)
  /\ (forall s : state W,
        exists s1 s2,
          check_github_pages env
            (logged s (world s) [EPrint (info_line "Checking GitHub Pages status...");
                                 EPrint (header_line "Checking Deployment Status")])
            = (Ret tt, s1)
          /\ check_heroku env
               (logged s1 (world s1) [EPrint (info_line "Checking Heroku status...")])
             = (Ret tt, s2)
          /\ check_status env PROJECT_ROOT s = report_git_status env PROJECT_ROOT s2).
Proof.
  assert (Hpages : forall s : state W,
            exists line w',
              check_github_pages env s =
                (Ret tt, logged s w' [EPrint line; EHttpGet GITHUB_PAGES_URL 10])
              /\ match fst (http_get env GITHUB_PAGES_URL 10 (world s)) with
                 | inl resp =>
                     if status_code resp =? 200
                     then line = success_line "GitHub Pages is up and running"
                     else line = warning_line ("GitHub Pages returned status code: "
                                               ++ str_int (status_code resp))
                          /\ contains (str_int (status_code resp)) line
                 | inr text =>
                     line = error_line ("Could not connect to GitHub Pages: " ++ text)
                     /\ contains text line
                 end).
  { intros s. pose proof (check_github_pages_report s) as H.
    destruct (http_get env GITHUB_PAGES_URL 10 (world s)) as [[resp | text] w'];
      cbn [fst]; do 2 eexists; (split; [ exact H | ]).
    - destruct (status_code resp =? 200); [ reflexivity | ].
      split; [ reflexivity | apply contains_in_line ].
    - split; [ reflexivity | apply contains_in_line ]. }
  assert (Hheroku : forall s : state W,
            exists line parsed w',
              check_heroku env s =
                (Ret tt, logged s w' (parsed ++ [EPrint line; EHttpGet HEROKU_API_HEALTH_URL 10]))
              /\ match fst (http_get env HEROKU_API_HEALTH_URL 10 (world s)) with
                 | inl resp =>
                     if status_code resp =? 200
                     then line = success_line "Heroku API is up and running"
                          /\ parsed = match json_pretty resp with
                                      | inl dumped => [EPrint (info_line ("API Status: " ++ dumped))]
                                      | inr _ => []
                                      end
                     else line = warning_line ("Heroku API returned status code: "
                                               ++ str_int (status_code resp))
                          /\ contains (str_int (status_code resp)) line
                          /\ parsed = []
                 | inr text =>
                     line = error_line ("Could not connect to Heroku API: " ++ text)
                     /\ contains text line /\ parsed = []
                 end).
  { intros s. pose proof (check_heroku_report s) as H.
    destruct (http_get env HEROKU_API_HEALTH_URL 10 (world s)) as [[resp | text] w'];
      cbn [fst].
    - destruct (status_code resp =? 200).
      + destruct (json_pretty resp) as [dumped | text].
        * exists (success_line "Heroku API is up and running"),
                 [EPrint (info_line ("API Status: " ++ dumped))], w'.
          split; [ exact H | split; reflexivity ].
        * exists (success_line "Heroku API is up and running"), [], w'.
          split; [ exact H | split; reflexivity ].
      + eexists _, [], _. split; [ exact H | ].
        split; [ reflexivity | split; [ apply contains_in_line | reflexivity ] ].
    - eexists _, [], _. split; [ exact H | ].
      split; [ reflexivity | split; [ apply contains_in_line | reflexivity ] ]. }
  split; [ exact Hpages | split; [ exact Hheroku | ] ].
  intros s.
  destruct (Hpages (logged s (world s)
                      [EPrint (info_line "Checking GitHub Pages status...");
                       EPrint (header_line "Checking Deployment Status")]))
    as (line1 & w1 & H1 & _).
  eexists. 
  destruct (Hheroku (logged (logged (logged s (world s)
                      [EPrint (info_line "Checking GitHub Pages status...");
                       EPrint (header_line "Checking Deployment Status")]) w1
                      [EPrint line1; EHttpGet GITHUB_PAGES_URL 10]) w1
                      [EPrint (info_line "Checking Heroku status...")]))
    as (line2 & parsed & w2 & H2 & _).
  eexists. split; [ exact H1 | ]. split; [ exact H2 | ].
  unfold check_status.
  erewrite bind_ret by reflexivity. erewrite bind_ret by reflexivity.
  rewrite (bind_ret _ _ _ _ _ H1).
  erewrite bind_ret by reflexivity.
  rewrite (bind_ret _ _ _ _ _ H2). reflexivity.
Qed.

End Status.

(* ===================================================================== *)
(** ** The backup command *)
(* ===================================================================== *)

Section Backup.

Context {W : Type} (env : Env W) (PROJECT_ROOT : string).

Lemma strictly_ret {A} (a : A) : exits_only_strictly (W := W) PROJECT_ROOT (ret a).
Proof. intros s. exact I. Qed.

Lemma strictly_os_call {A} ev (f : W -> os_result A * W) :
  exits_only_strictly PROJECT_ROOT (os_call ev f).
Proof.
  intros s. unfold os_call. destruct (f (world s)) as [[a | text] w']; exact I.
Qed.

Lemma strictly_os_read {A} (f : W -> A) : exits_only_strictly PROJECT_ROOT (os_read f).
Proof. intros s. exact I. Qed.

Lemma strictly_emit ev : exits_only_strictly (W := W) PROJECT_ROOT (emit ev).
Proof. intros s. exact I. Qed.

Lemma strictly_bind {A B} (m : M W A) (k : A -> M W B) :
  exits_only_strictly PROJECT_ROOT m ->
  (forall a, exits_only_strictly PROJECT_ROOT (k a)) ->
  exits_only_strictly PROJECT_ROOT (bind m k).
Proof.
  intros Hm Hk s. unfold bind. specialize (Hm s).
  destruct (m s) as [[a | e] s1].
  - apply Hk.
  - exact Hm.
Qed.

Lemma strictly_run_command command :
  exits_only_strictly PROJECT_ROOT (run_command env PROJECT_ROOT command None true).
Proof.
  intros s. destruct (run_command_strict_cases env PROJECT_ROOT command s); try exact I.
  split; [ reflexivity | ].
  eexists _, _, _. reflexivity.
Qed.

Lemma strictly_strip_attr stdout :
  exits_only_strictly (W := W) PROJECT_ROOT (strip_attr stdout).
Proof. intros s. destruct stdout; exact I. Qed.

(** The copying loop raises nothing but the exceptions of the file system. *)
Lemma strictly_copy_untracked backup_dir untracked_files :
  exits_only_strictly PROJECT_ROOT (copy_untracked env backup_dir untracked_files).
Proof.
  induction untracked_files as [| file rest IH]; simpl.
  - apply strictly_ret.
  - apply strictly_bind; [ | intros _; exact IH ].
    destruct (truthy file); [ | apply strictly_ret ].
    apply strictly_bind; [ apply strictly_os_call | intros _ ].
    apply strictly_bind; [ apply strictly_os_read | intros is_file ].
    destruct is_file; [ apply strictly_os_call | apply strictly_ret ].
Qed.

Lemma strictly_backup_steps backup_dir :
  exits_only_strictly PROJECT_ROOT (backup_steps env PROJECT_ROOT backup_dir).
Proof.
  unfold backup_steps.
  apply strictly_bind; [ apply strictly_os_call | intros _ ].
  apply strictly_bind; [ apply strictly_run_command | intros _ ].
  apply strictly_bind; [ apply strictly_run_command | intros [[stdout ?] ?] ].
  apply strictly_bind; [ apply strictly_strip_attr | intros listing ].
  apply strictly_bind; [ apply strictly_copy_untracked | intros _ ].
  apply strictly_bind; [ apply strictly_run_command | intros _ ].
  apply strictly_bind; [ apply strictly_os_call | intros _ ].
  apply strictly_emit.
Qed.

(** A strict command that exits non-zero inside a [try ... except
    Exception] ends the block with [SystemExit(1)], whatever follows it
    and whatever the handler does. *)
Lemma strict_failure_escapes_try {A} command (k : _ -> M W A) h s result w' :
  spawn env command PROJECT_ROOT (world s) = (inl result, w') ->
  proc_returncode result <> 0 ->
  try_except (bind (run_command env PROJECT_ROOT command None true) k)
             (except_Exception h) s =
    (Raise (SystemExit 1),
     logged s w' [EPrint (proc_stderr result);
                  EPrint (error_line ("Command failed: " ++ command));
                  ESpawn command PROJECT_ROOT]).
Proof.
  intros Hspawn Hrc.
  apply try_except_Exception_SystemExit, bind_raise.
  now apply run_command_strict_failure.
Qed.

(** The [try] of the backup, by the way its steps end. *)
Lemma guarded_backup_cases backup_dir (s : state W) :
  match backup_steps env PROJECT_ROOT backup_dir s with
  | (Ret _, s') => guarded_backup env PROJECT_ROOT backup_dir s = (Ret tt, s')
  | (Raise (SystemExit code), s') =>
      code = 1
      /\ exit_trail PROJECT_ROOT s'
      /\ guarded_backup env PROJECT_ROOT backup_dir s = (Raise (SystemExit 1), s')
  | (Raise e, s') =>
      guarded_backup env PROJECT_ROOT backup_dir s =
        (Ret tt, logged s' (world s') [EPrint (error_line ("Backup failed: " ++ exn_str e))])
  end.
Proof.
  pose proof (strictly_backup_steps backup_dir s) as Hstrict.
  unfold guarded_backup, try_except.
  destruct (backup_steps env PROJECT_ROOT backup_dir s) as [[[] | e] s'].
  - reflexivity.
  - destruct e as [code | rc cmd out err | text]; cbn.
    + destruct Hstrict as [-> Htrail]. repeat split. exact Htrail.
    + reflexivity.
    + reflexivity.
Qed.

(** The backup command is its header, the dirtiness check with its
    warning, and the guarded steps on the directory named after the clock. *)
Lemma create_backup_unfolds (s : state W) dirty s1 :
  check_git_status env PROJECT_ROOT
    (logged s (world s) [EPrint (header_line "Creating Backup")]) = (Ret dirty, s1) ->
  create_backup env PROJECT_ROOT s =
    guarded_backup env PROJECT_ROOT ("backup_" ++ strftime_stamp (now env (world s)))
      (if dirty
       then logged s1 (world s1)
              [EPrint (warning_line
                 "There are uncommitted changes. These will be included in the backup.")]
       else s1).
Proof.
  intros Hdirty. unfold create_backup.
  erewrite bind_ret by reflexivity.
  erewrite bind_ret by reflexivity.
  cbn [world logged]. rewrite (bind_ret _ _ _ _ _ Hdirty).
  destruct dirty; erewrite bind_ret by reflexivity; reflexivity.
Qed.

(** C1 (as amended). Once the dirtiness check of the backup command has
    returned, the command ends in one of three ways.  When every step
    succeeds it returns.  Every exception of class [Exception] raised by a
    step (a directory that cannot be created, a copy or the removal that
    fails, a command that cannot be started) is caught: [Backup failed:]
    with the exception's text is printed and the command returns; in both
    cases the exit code is 0.  The one other end is the [sys.exit(1)] of
    the strict runner after a shell command of the sequence exited
    non-zero: the [try] does not catch it, the runner's failure line and
    the command's standard error are the last things printed, and the
    exit code is 1. *)
Theorem guarded_backup_outcomes (prog : string) (s : state W) dirty s1 :
  check_git_status env PROJECT_ROOT
    (logged s (world s) [EPrint (header_line "Creating Backup")]) = (Ret dirty, s1) ->
  let backup_dir := "backup_" ++ strftime_stamp (now env (world s)) in
  let s2 := if dirty
            then logged s1 (world s1)
                   [EPrint (warning_line
                      "There are uncommitted changes. These will be included in the backup.")]
            else s1 in
  let run := main env PROJECT_ROOT [prog; "backup"] s in
  match backup_steps env PROJECT_ROOT backup_dir s2 with
  | (Ret _, s') => run = (Ret tt, s') /\ exit_code (fst run) = 0
  | (Raise (SystemExit code), s') =>
      code = 1
      /\ exit_trail PROJECT_ROOT s'
      /\ run = (Raise (SystemExit 1), s')
      /\ exit_code (fst run) = 1
  | (Raise e, s') =>
      run = (Ret tt,
             logged s' (world s') [EPrint (error_line ("Backup failed: " ++ exn_str e))])
      /\ exit_code (fst run) = 0
  end.
Proof.
  intros Hdirty backup_dir s2 run.
  assert (Hrun : run = guarded_backup env PROJECT_ROOT backup_dir s2).
  { subst run. rewrite main_backup. now apply create_backup_unfolds. }
  rewrite Hrun. clear Hrun run.
  pose proof (guarded_backup_cases backup_dir s2) as H.
  destruct (backup_steps env PROJECT_ROOT backup_dir s2) as [[[] | e] s'].
  - rewrite H. split; reflexivity.
  - destruct e as [code | rc cmd out err | text].
    + destruct H as (-> & Htrail & H). rewrite H. repeat split. exact Htrail.
    + rewrite H. split; reflexivity.
    + rewrite H. split; reflexivity.
Qed.

(** The end of a backup whose steps all succeeded: the archive is written
    by [tar] under the directory's name with [.tar.gz], then the directory
    is removed, then the success line names the archive. *)
Lemma backup_success_trail backup_dir (s s' : state W) :
  backup_steps env PROJECT_ROOT backup_dir s = (Ret tt, s') ->
  exists rest,
    log s' = EPrint (success_line ("Backup created: " ++ backup_dir ++ ".tar.gz"))
             :: ERmTree backup_dir
             :: ESpawn ("tar -czf " ++ (backup_dir ++ ".tar.gz") ++ " " ++ backup_dir)
                       PROJECT_ROOT
             :: rest.
Proof.
  unfold backup_steps. intros H.
  apply bind_returns in H as (? & s1 & _ & H).
  apply bind_returns in H as (? & s2 & _ & H).
  apply bind_returns in H as ([[stdout ?] ?] & s3 & _ & H).
  apply bind_returns in H as (listing & s4 & _ & H).
  apply bind_returns in H as (? & s5 & _ & H).
  apply bind_returns in H as (? & s6 & Htar & H).
  apply bind_returns in H as (? & s7 & Hrm & H).
  pose proof (run_command_strict_cases env PROJECT_ROOT
                ("tar -czf " ++ (backup_dir ++ ".tar.gz") ++ " " ++ backup_dir) s5) as Hcases.
  rewrite Htar in Hcases. inversion Hcases as [result w' Hrc Heq | |]. subst s6.
  unfold os_call in Hrm. cbn [world log logged] in Hrm.
  destruct (rmtree env backup_dir w') as [[[] | text] w'']; [ | discriminate ].
  injection Hrm as Hs7. subst s7.
  unfold print_success, print, emit in H. injection H as Hs'. subst s'.
  eexists. reflexivity.
Qed.

(** A backup command that returns has either written the archive
    [backup_<stamp>.tar.gz] and then removed the directory [backup_<stamp>],
    or has reported a failure. *)
Lemma create_backup_returns (s s' : state W) :
  create_backup env PROJECT_ROOT s = (Ret tt, s') ->
  let backup_dir := "backup_" ++ strftime_stamp (now env (world s)) in
  (exists rest,
     log s' = EPrint (success_line ("Backup created: " ++ backup_dir ++ ".tar.gz"))
              :: ERmTree backup_dir
              :: ESpawn ("tar -czf " ++ (backup_dir ++ ".tar.gz") ++ " " ++ backup_dir)
                        PROJECT_ROOT
              :: rest)
  \/ (exists text rest,
        log s' = EPrint (error_line ("Backup failed: " ++ text)) :: rest).
Proof.
  intros H backup_dir. unfold create_backup in H.
  apply bind_returns in H as ([] & s1 & Hhead & H).
  apply bind_returns in H as (timestamp & s2 & Hnow & H).
  unfold print_header, print, emit in Hhead. injection Hhead as Hs1. subst s1.
  unfold os_read in Hnow. cbn [world] in Hnow. injection Hnow as Hstamp Hs2.
  subst timestamp s2.
  apply bind_returns in H as (dirty & s3 & _ & H).
  apply bind_returns in H as (? & s4 & _ & H).
  fold backup_dir in H.
  pose proof (guarded_backup_cases backup_dir s4) as Hout.
  destruct (backup_steps env PROJECT_ROOT backup_dir s4) as [[[] | e] s5] eqn:Hsteps.
  - rewrite Hout in H. injection H as Hs'. subst s'.
    left. now apply (backup_success_trail backup_dir s4).
  - right. destruct e as [code | rc cmd out err | text].
    + destruct Hout as (_ & _ & Hout). rewrite Hout in H. discriminate.
    + rewrite Hout in H. injection H as Hs'. subst s'. eexists _, _. reflexivity.
    + rewrite Hout in H. injection H as Hs'. subst s'. eexists _, _. reflexivity.
Qed.

End Backup.

(* ===================================================================== *)
(** ** Runs on the reference host *)
(* ===================================================================== *)

Module Runs.

Import Sim.

(** The runner on a command that is not installed: it exits with 127. *)
Lemma run_command_exit_handling_run :
  spawn env "npm run build" (cwd_or_root root None) (world (fresh clean_repo))
    = (inl (failed "/bin/sh: 1: npm: not found" 127), clean_repo)
  /\ 127 <> 0
  /\ exit_code (fst (run_command env root "npm run build" None true (fresh clean_repo))) = 1
  /\ run_command env root "npm run build" None false (fresh clean_repo) =
       (Ret (Some EmptyString, "/bin/sh: 1: npm: not found", 127),
        mkState clean_repo [ESpawn "npm run build" root]).
Proof.
  assert (Hspawn : spawn env "npm run build" (cwd_or_root root None)
                     (world (fresh clean_repo))
                   = (inl (failed "/bin/sh: 1: npm: not found" 127), clean_repo))
    by reflexivity.
  assert (Hrc : 127 <> 0) by discriminate.
  destruct (run_command_exit_handling env root "npm run build" None
              (fresh clean_repo) _ _ Hspawn) as [Hstrict Hlenient].
  split; [ exact Hspawn | ].
  split; [ exact Hrc | ].
  split; [ exact (proj2 (Hstrict Hrc)) | exact Hlenient ].
Defined.

(** [deploy-all] where the build fails: the backend is deployed all the
    same, and the warning closes the run. *)
Lemma deploy_all_runs_both_run :
  lower env "Deploy-All" = "deploy-all"
  /\ deploy_frontend env root (fresh clean_repo)
     = (Ret false, snd (deploy_frontend env root (fresh clean_repo)))
  /\ exists backend s2,
       deploy_backend env root (snd (deploy_frontend env root (fresh clean_repo)))
         = (backend, s2)
       /\ (exists recent,
             log s2 = (recent ++ EPrint (header_line "Deploying Backend to Heroku")
                       :: log (snd (deploy_frontend env root (fresh clean_repo))))%list)
       /\ main env root ["admin.py"; "Deploy-All"] (fresh clean_repo) =
            match backend with
            | Ret backend_ok =>
                (Ret tt,
                 logged s2 (world s2)
                   [EPrint (if false && backend_ok
                            then success_line "Both frontend and backend deployed successfully!"
                            else warning_line
                                   "There were issues with the deployment. Check the logs above.")])
            | Raise e => (Raise e, s2)
            end.
Proof.
  assert (Harg : lower env "Deploy-All" = "deploy-all") by reflexivity.
  assert (Hfront : deploy_frontend env root (fresh clean_repo)
                   = (Ret false, snd (deploy_frontend env root (fresh clean_repo))))
    by (vm_compute; reflexivity).
  split; [ exact Harg | ].
  split; [ exact Hfront | ].
  exact (deploy_all_runs_both env root "admin.py" "Deploy-All" [] (fresh clean_repo)
           false _ Harg Hfront).
Defined.

(** An argument that is no command. *)
Lemma unknown_command_shows_help_run :
  ~ In (lower env "Restart") known_commands
  /\ run_script env root ["admin.py"; "Restart"] clean_repo =
       (Ret tt,
        mkState clean_repo
          (List.rev (map EPrint (error_line "Unknown command: restart" :: help_lines))))
  /\ exit_code (fst (run_script env root ["admin.py"; "Restart"] clean_repo)) = 0.
Proof.
  assert (Hnot : ~ In (lower env "Restart") known_commands).
  { intros H. vm_compute in H.
    repeat (destruct H as [H | H]; [ discriminate H | ]). exact H. }
  destruct (unknown_command_shows_help env root "admin.py" "Restart" [] clean_repo Hnot)
    as (Hrun & _ & _ & Hexit).
  split; [ exact Hnot | ].
  split; [ exact Hrun | exact Hexit ].
Defined.

(** The backend deploy of a clean tree: the push succeeds. *)
Lemma backend_push_step_run :
  offer_commit env root (fresh clean_repo)
    = (Ret tt, snd (offer_commit env root (fresh clean_repo)))
  /\ spawn env ("git push " ++ HEROKU_REMOTE ++ " main") root
       (world (snd (offer_commit env root (fresh clean_repo))))
     = (inl (ok EmptyString),
        snd (spawn env "git push heroku main" root clean_repo))
  /\ fst (deploy_backend env root (fresh clean_repo)) = Ret true.
Proof.
  assert (Hoffer : offer_commit env root (fresh clean_repo)
                   = (Ret tt, snd (offer_commit env root (fresh clean_repo))))
    by (vm_compute; reflexivity).
  assert (Hspawn : spawn env ("git push " ++ HEROKU_REMOTE ++ " main") root
                     (world (snd (offer_commit env root (fresh clean_repo))))
                   = (inl (ok EmptyString),
                      snd (spawn env "git push heroku main" root clean_repo)))
    by (vm_compute; reflexivity).
  split; [ exact Hoffer | ].
  split; [ exact Hspawn | ].
  rewrite (proj2 (backend_push_step env root (fresh clean_repo) _ _ _ Hoffer Hspawn)).
  reflexivity.
Defined.

(** A failed [git add] ends the [deploy-backend] command with exit code 1. *)
Lemma commit_stage_is_strict_run :
  check_git_status env root (after_backend_header locked_index)
    = (Ret true, snd (check_git_status env root (after_backend_header locked_index)))
  /\ read_input env commit_prompt locked_index
     = (inl "y", set_answers locked_index ["fix typo"])
  /\ lower env "y" = "y"
  /\ read_input env message_prompt (set_answers locked_index ["fix typo"])
     = (inl "fix typo", set_answers locked_index [])
  /\ spawn env "git add ." root (set_answers locked_index [])
     = (inl (failed "fatal: Unable to create '.git/index.lock': File exists." 128),
        set_answers locked_index [])
  /\ 128 <> 0
  /\ fst (deploy_backend env root (fresh locked_index)) = Raise (SystemExit 1)
  /\ exit_code (fst (main env root ["admin.py"; "deploy-backend"] (fresh locked_index))) = 1.
Proof.
  assert (Hdirty : check_git_status env root (after_backend_header locked_index)
                   = (Ret true,
                      snd (check_git_status env root (after_backend_header locked_index))))
    by (vm_compute; reflexivity).
  assert (Hanswer : read_input env commit_prompt
                      (world (snd (check_git_status env root
                                     (after_backend_header locked_index))))
                    = (inl "y", set_answers locked_index ["fix typo"]))
    by (vm_compute; reflexivity).
  assert (Hyes : lower env "y" = "y") by reflexivity.
  assert (Hmsg : read_input env message_prompt (set_answers locked_index ["fix typo"])
                 = (inl "fix typo", set_answers locked_index []))
    by reflexivity.
  assert (Hadd : spawn env "git add ." root (set_answers locked_index [])
                 = (inl (failed "fatal: Unable to create '.git/index.lock': File exists." 128),
                    set_answers locked_index []))
    by reflexivity.
  assert (Hrc : 128 <> 0) by discriminate.
  destruct (commit_stage_is_strict env root "admin.py" (fresh locked_index)
              _ _ _ _ _ _ _ Hdirty Hanswer Hyes Hmsg Hadd) as [Hfail _].
  destruct (Hfail Hrc) as [Hdeploy Hexit].
  split; [ exact Hdirty | ].
  split; [ exact Hanswer | ].
  split; [ exact Hyes | ].
  split; [ exact Hmsg | ].
  split; [ exact Hadd | ].
  split; [ exact Hrc | ].
  split; [ rewrite Hdeploy; reflexivity | exact Hexit ].
Defined.

(** Declining the commit: only the push runs. *)
Lemma declined_commit_still_pushes_run :
  check_git_status env root (after_backend_header declined)
    = (Ret true, snd (check_git_status env root (after_backend_header declined)))
  /\ read_input env commit_prompt declined = (inl "n", set_answers declined [])
  /\ lower env "n" <> "y"
  /\ commands_run (snd (deploy_backend env root (fresh declined)))
     = ["git status --porcelain"; "git push heroku main"]
  /\ exists recent,
       log (snd (deploy_backend env root (fresh declined))) =
         (recent ++ EInput commit_prompt :: EPrint uncommitted_warning
          :: log (snd (check_git_status env root (after_backend_header declined))))%list
       /\ commands_of (List.rev recent) = ["git push heroku main"].
Proof.
  assert (Hdirty : check_git_status env root (after_backend_header declined)
                   = (Ret true,
                      snd (check_git_status env root (after_backend_header declined))))
    by (vm_compute; reflexivity).
  assert (Hanswer : read_input env commit_prompt
                      (world (snd (check_git_status env root (after_backend_header declined))))
                    = (inl "n", set_answers declined []))
    by (vm_compute; reflexivity).
  assert (Hno : lower env "n" <> "y") by discriminate.
  destruct (declined_commit_still_pushes env root (fresh declined) _ _ _
              Hdirty Hanswer Hno) as (_ & _ & Hpush).
  split; [ exact Hdirty | ].
  split; [ exact Hanswer | ].
  split; [ exact Hno | ].
  split; [ vm_compute; reflexivity | exact Hpush ].
Defined.

(** The backup on a host where its directory cannot be created: the
    exception is caught and reported, exit code 0. *)
Lemma guarded_backup_outcomes_run :
  check_git_status env root
    (logged (fresh readonly_root) readonly_root [EPrint (header_line "Creating Backup")])
    = (Ret false,
       mkState readonly_root
         [ESpawn "git status --porcelain" root; EPrint (header_line "Creating Backup")])
  /\ main env root ["admin.py"; "backup"] (fresh readonly_root) =
       (Ret tt,
        mkState readonly_root
          [ EPrint (error_line
              "Backup failed: [Errno 13] Permission denied: 'backup_20240102_030405'");
            EMakeDirs "backup_20240102_030405";
            ESpawn "git status --porcelain" root;
            EPrint (header_line "Creating Backup") ])
  /\ exit_code (fst (main env root ["admin.py"; "backup"] (fresh readonly_root))) = 0.
Proof.
  assert (Hdirty : check_git_status env root
                     (logged (fresh readonly_root) (world (fresh readonly_root))
                        [EPrint (header_line "Creating Backup")])
                   = (Ret false,
                      mkState readonly_root
                        [ESpawn "git status --porcelain" root;
                         EPrint (header_line "Creating Backup")]))
    by (vm_compute; reflexivity).
  split; [ exact Hdirty | ].
  exact (guarded_backup_outcomes env root "admin.py" (fresh readonly_root) _ _ Hdirty).
Defined.

(** C1, counterexample. On a host where the archive cannot be written the
    [tar] command of the backup exits with 2 inside the [try]: the strict
    runner prints its failure line and raises [SystemExit(1)], which the
    [except Exception] clause does not catch.  No [Backup failed] line is
    printed and the process ends with exit code 1, not 0. *)
Lemma backup_strict_failure_escapes :
  fst (run_script env root ["admin.py"; "backup"] disk_full) = Raise (SystemExit 1)
  /\ exit_code (fst (run_script env root ["admin.py"; "backup"] disk_full)) <> 0
  /\ List.rev (log (snd (run_script env root ["admin.py"; "backup"] disk_full))) =
       [ EPrint (header_line "Creating Backup");
         ESpawn "git status --porcelain" root;
         EMakeDirs "backup_20240102_030405";
         ESpawn "git archive HEAD | tar -x -C backup_20240102_030405" root;
         ESpawn "git ls-files --others --exclude-standard" root;
         EMakeDirs "backup_20240102_030405/backup_20240102_030405";
         ECopy2 "backup_20240102_030405/a.txt"
                "backup_20240102_030405/backup_20240102_030405/a.txt";
         ESpawn "tar -czf backup_20240102_030405.tar.gz backup_20240102_030405" root;
         EPrint (error_line
           "Command failed: tar -czf backup_20240102_030405.tar.gz backup_20240102_030405");
         EPrint "tar: backup_20240102_030405.tar.gz: Cannot write: No space left on device" ]
  /\ ~ (exists text,
          In (EPrint (error_line ("Backup failed: " ++ text)))
             (log (snd (run_script env root ["admin.py"; "backup"] disk_full)))).
Proof.
  split; [ vm_compute; reflexivity | ].
  split; [ vm_compute; discriminate | ].
  split; [ vm_compute; reflexivity | ].
  intros [text H]. vm_compute in H.
  repeat (destruct H as [H | H]; [ discriminate H | ]). exact H.
Qed.

(** C8, counterexample. With the branch [dev] checked out, one commit ahead
    of [main], the backend deploy succeeds and leaves the branch [main] of
    the remote at the commit of the local [main]: the current branch was
    not pushed. *)
Lemma push_is_not_the_current_branch :
  fst (deploy_backend env root (fresh on_dev_branch)) = Ret true
  /\ current_branch (world (snd (deploy_backend env root (fresh on_dev_branch)))) = "dev"
  /\ current_commit (world (snd (deploy_backend env root (fresh on_dev_branch)))) = Some 2%N
  /\ remote_branch "heroku" "main"
       (world (snd (deploy_backend env root (fresh on_dev_branch)))) = Some 1%N
  /\ remote_branch "heroku" "main"
       (world (snd (deploy_backend env root (fresh on_dev_branch))))
     <> current_commit (world (snd (deploy_backend env root (fresh on_dev_branch)))).
Proof.
  split; [ vm_compute; reflexivity | ].
  split; [ vm_compute; reflexivity | ].
  split; [ vm_compute; reflexivity | ].
  split; [ vm_compute; reflexivity | ].
  vm_compute. discriminate.
Qed.

(** C6, at a repository whose one tracked file is edited and not committed,
    with no untracked file and no ignore rule.  The backup warns that the
    uncommitted changes will be included and reports success; the
    directory is gone and the archive has the name of the stamp.  But the
    archive holds the committed content [v1] of the file, not the content
    [v2] of the working tree, and holds it twice: the backup directory
    lies in the working tree when the untracked files are listed, so the
    loop copies it into itself.  Unpacked, the archive is not the set of
    tracked and untracked files. *)
Theorem backup_archive_of_dirty_tree :
  fst (run_script env root ["admin.py"; "backup"] (dirty_repo [] [])) = Ret tt
  /\ In (EPrint (warning_line
           "There are uncommitted changes. These will be included in the backup."))
        (log (snd (run_script env root ["admin.py"; "backup"] (dirty_repo [] []))))
  /\ working_tree_snapshot (dirty_repo [] []) = [("a.txt", "v2")]
  /\ tarballs (world (snd (run_script env root ["admin.py"; "backup"] (dirty_repo [] [])))) =
       [ ("backup_20240102_030405.tar.gz",
          [ ("backup_20240102_030405/backup_20240102_030405/a.txt", "v1");
            ("backup_20240102_030405/a.txt", "v1") ]) ]
  /\ unpacked "backup_20240102_030405"
       (archive "backup_20240102_030405.tar.gz"
          (world (snd (run_script env root ["admin.py"; "backup"] (dirty_repo [] []))))) =
       [ ("backup_20240102_030405/a.txt", "v1"); ("a.txt", "v1") ]
  /\ ~ (forall entry,
          In entry (unpacked "backup_20240102_030405"
                      (archive "backup_20240102_030405.tar.gz"
                         (world (snd (run_script env root ["admin.py"; "backup"]
                                        (dirty_repo [] []))))))
          <-> In entry (working_tree_snapshot (dirty_repo [] [])))
  /\ dirs (world (snd (run_script env root ["admin.py"; "backup"] (dirty_repo [] [])))) = []
  /\ files (world (snd (run_script env root ["admin.py"; "backup"] (dirty_repo [] []))))
     = [("a.txt", "v2")].
Proof.
  split; [ vm_compute; reflexivity | ].
  split.
  { vm_compute. repeat (first [ left; reflexivity | right ]). }
  split; [ vm_compute; reflexivity | ].
  split; [ vm_compute; reflexivity | ].
  split; [ vm_compute; reflexivity | ].
  split.
  { intros H. destruct (H ("a.txt", "v2")) as [_ H2].
    assert (Hin : In ("a.txt", "v2") (working_tree_snapshot (dirty_repo [] [])))
      by (left; reflexivity).
    apply H2 in Hin. vm_compute in Hin.
    repeat (destruct Hin as [Hin | Hin]; [ discriminate Hin | ]). exact Hin. }
  split; vm_compute; reflexivity.
Qed.

(** The status command against endpoints that answer 200 and 500. *)
Example status_of_a_failing_api :
  List.rev (log (snd (run_script env root ["admin.py"; "status"]
                        (online 200 500 (inr "not json"))))) =
    [ EPrint (header_line "Checking Deployment Status");
      EPrint (info_line "Checking GitHub Pages status...");
      EHttpGet GITHUB_PAGES_URL 10;
      EPrint (success_line "GitHub Pages is up and running");
      EPrint (info_line "Checking Heroku status...");
      EHttpGet HEROKU_API_HEALTH_URL 10;
      EPrint (warning_line "Heroku API returned status code: 500");
      ESpawn "git status -s" root;
      EPrint (success_line "Git repository is clean") ].
Proof. vm_compute. reflexivity. Qed.

End Runs.

(* ===================================================================== *)
(** ** More on the string operations *)
(* ===================================================================== *)

Lemma ascii_lower_idempotent (c : ascii) : ascii_lower (ascii_lower c) = ascii_lower c.
Proof.
  destruct c as [b0 b1 b2 b3 b4 b5 b6 b7].
  destruct b0, b1, b2, b3, b4, b5, b6, b7; reflexivity.
Qed.

Lemma lower_ascii_idempotent (s : string) : lower_ascii (lower_ascii s) = lower_ascii s.
Proof.
  induction s as [| c r IH]; simpl; [ reflexivity | ].
  now rewrite ascii_lower_idempotent, IH.
Qed.

Lemma ascii_lower_below (c : ascii) :
  (nat_of_ascii c <? 128)%nat = true -> (nat_of_ascii (ascii_lower c) <? 128)%nat = true.
Proof.
  destruct c as [b0 b1 b2 b3 b4 b5 b6 b7].
  destruct b0, b1, b2, b3, b4, b5, b6, b7; intros H; try discriminate H; reflexivity.
Qed.

(** Lowercasing ASCII text gives ASCII text. *)
Lemma is_ascii_lower_ascii (s : string) :
  is_ascii s = true -> is_ascii (lower_ascii s) = true.
Proof.
  induction s as [| c r IH]; [ reflexivity | ].
  cbn [is_ascii lower_ascii]. intros H. apply andb_true_iff in H as [Hc Hr].
  now rewrite (ascii_lower_below c Hc), (IH Hr).
Qed.

Lemma list_ascii_of_append (a b : string) :
  list_ascii_of_string (a ++ b)
  = (list_ascii_of_string a ++ list_ascii_of_string b)%list.
Proof. induction a as [| c a IH]; simpl; [ reflexivity | now rewrite IH ]. Qed.

Lemma string_of_list_app (l1 l2 : list ascii) :
  string_of_list_ascii (l1 ++ l2)
  = string_of_list_ascii l1 ++ string_of_list_ascii l2.
Proof. induction l1 as [| c l1 IH]; simpl; [ reflexivity | now rewrite IH ]. Qed.

Lemma rev_involutive (s : string) : PyStr.rev (PyStr.rev s) = s.
Proof.
  unfold PyStr.rev.
  rewrite list_ascii_of_string_of_list_ascii, List.rev_involutive.
  apply string_of_list_ascii_of_string.
Qed.

Lemma rev_append (a b : string) :
  PyStr.rev (a ++ b) = PyStr.rev b ++ PyStr.rev a.
Proof.
  unfold PyStr.rev.
  now rewrite list_ascii_of_append, List.rev_app_distr, string_of_list_app.
Qed.

Section StripFront.

Variable w1 : ascii -> bool.
Variable w2 : ascii -> ascii -> bool.
Variable w3 : ascii -> ascii -> ascii -> bool.

Lemma strip_front_fixed (s : string) :
  starts_dropped w1 w2 w3 s = false -> strip_front w1 w2 w3 s = s.
Proof.
  destruct s as [| a [| b [| c r]]]; cbn; intros H; try reflexivity;
    destruct (w1 a); try discriminate H; cbn in *; try reflexivity;
    destruct (w2 a b); try discriminate H; cbn in *; try reflexivity;
    destruct (w3 a b c); try discriminate H; reflexivity.
Qed.

Lemma strip_front_bounded (n : nat) :
  forall s, (String.length s <= n)%nat ->
    starts_dropped w1 w2 w3 (strip_front w1 w2 w3 s) = false
    /\ exists dropped, s = dropped ++ strip_front w1 w2 w3 s.
Proof.
  induction n as [| n IH]; intros s Hlen.
  - destruct s; [ | cbn in Hlen; lia ].
    split; [ reflexivity | now exists EmptyString ].
  - destruct s as [| a r]; [ split; [ reflexivity | now exists EmptyString ] | ].
    cbn [String.length] in Hlen. cbn [strip_front].
    destruct (w1 a) eqn:H1.
    { destruct (IH r ltac:(lia)) as [Hs [d Hd]].
      split; [ exact Hs | ]. exists (String a d). cbn. now rewrite <- Hd. }
    destruct r as [| b r2].
    { split; [ cbn; now rewrite H1 | now exists EmptyString ]. }
    cbn [String.length] in Hlen.
    destruct (w2 a b) eqn:H2.
    { destruct (IH r2 ltac:(lia)) as [Hs [d Hd]].
      split; [ exact Hs | ]. exists (String a (String b d)). cbn. now rewrite <- Hd. }
    destruct r2 as [| c r3].
    { split; [ cbn; now rewrite H1, H2 | now exists EmptyString ]. }
    cbn [String.length] in Hlen.
    destruct (w3 a b c) eqn:H3.
    { destruct (IH r3 ltac:(lia)) as [Hs [d Hd]].
      split; [ exact Hs | ]. exists (String a (String b (String c d))). cbn.
      now rewrite <- Hd. }
    split; [ cbn; now rewrite H1, H2, H3 | now exists EmptyString ].
Qed.

(** What is left starts with no character that is dropped. *)
Lemma strip_front_starts (s : string) :
  starts_dropped w1 w2 w3 (strip_front w1 w2 w3 s) = false.
Proof. exact (proj1 (strip_front_bounded (String.length s) s (le_n _))). Qed.

(** What is left is the end of the text. *)
Lemma strip_front_suffix (s : string) :
  exists dropped, s = dropped ++ strip_front w1 w2 w3 s.
Proof. exact (proj2 (strip_front_bounded (String.length s) s (le_n _))). Qed.

Lemma strip_front_idempotent (s : string) :
  strip_front w1 w2 w3 (strip_front w1 w2 w3 s) = strip_front w1 w2 w3 s.
Proof. apply strip_front_fixed, strip_front_starts. Qed.

(** A text that starts with no dropped character has no beginning that
    starts with one. *)
Lemma starts_prefix (p w : string) :
  starts_dropped w1 w2 w3 (p ++ w) = false -> starts_dropped w1 w2 w3 p = false.
Proof.
  destruct p as [| a [| b [| c r]]]; cbn; intros H; try reflexivity;
    destruct (w1 a); try discriminate H; cbn in *; try reflexivity;
    destruct (w2 a b); try discriminate H; cbn in *; try reflexivity;
    exact H.
Qed.

End StripFront.

Lemma rstrip_idempotent (s : string) : rstrip (rstrip s) = rstrip s.
Proof. unfold rstrip. now rewrite rev_involutive, strip_front_idempotent. Qed.

(** [rstrip] returns a beginning of its text. *)
Lemma rstrip_prefix (s : string) : exists dropped, s = rstrip s ++ dropped.
Proof.
  unfold rstrip.
  destruct (strip_front_suffix isspace (fun a b => isspace2 b a)
              (fun a b c => isspace3 c b a) (PyStr.rev s)) as [d Hd].
  exists (PyStr.rev d).
  rewrite <- rev_append, <- Hd. now rewrite rev_involutive.
Qed.

(** [strip] of a stripped text changes nothing: the second [strip] of
    [check_git_status] and [create_backup] on the runner's output adds
    nothing to the first. *)
Lemma strip_idempotent (s : string) : strip (strip s) = strip s.
Proof.
  unfold strip.
  assert (Hleft : lstrip (rstrip (lstrip s)) = rstrip (lstrip s)).
  { destruct (rstrip_prefix (lstrip s)) as [d Hd].
    unfold lstrip at 1. apply strip_front_fixed.
    apply (starts_prefix _ _ _ _ d). rewrite <- Hd.
    unfold lstrip. apply strip_front_starts. }
  rewrite Hleft. apply rstrip_idempotent.
Qed.

Example strip_unicode_example :
  strip (String "194" (String "160" ("x y" ++ String "226" (String "128" (String "168" nl)))))
  = "x y".
Proof. reflexivity. Qed.

Lemma split_lf_nonempty (s : string) : split_lf s <> [].
Proof.
  induction s as [| c r IH]; simpl; [ discriminate | ].
  destruct (Ascii.eqb c LF); [ discriminate | ].
  destruct (split_lf r); discriminate.
Qed.

Lemma split_lf_single (a : string) : free_of LF a = true -> split_lf a = [a].
Proof.
  induction a as [| c r IH]; [ reflexivity | ].
  cbn [free_of split_lf]. intros H. apply andb_true_iff in H as [Hc Hr].
  rewrite Ascii.eqb_sym in Hc. apply negb_true_iff in Hc.
  now rewrite Hc, (IH Hr).
Qed.

Lemma split_lf_line (a b : string) :
  free_of LF a = true -> split_lf (a ++ nl ++ b) = a :: split_lf b.
Proof.
  induction a as [| c r IH]; [ reflexivity | ].
  cbn [free_of split_lf append]. intros H. apply andb_true_iff in H as [Hc Hr].
  rewrite Ascii.eqb_sym in Hc. apply negb_true_iff in Hc.
  now rewrite Hc, (IH Hr).
Qed.

(** Joining the pieces of a split with line feeds gives the text back. *)
Lemma concat_split_lf (s : string) : String.concat nl (split_lf s) = s.
Proof.
  induction s as [| c r IH]; simpl; [ reflexivity | ].
  destruct (Ascii.eqb_spec c LF) as [-> | Hc].
  - pose proof (split_lf_nonempty r) as Hne.
    destruct (split_lf r) as [| h t]; [ contradiction | ].
    simpl in *. now rewrite IH.
  - destruct (split_lf r) as [| h t] eqn:Hsplit.
    + now destruct (split_lf_nonempty r).
    + destruct t; simpl in *; now rewrite <- IH.
Qed.

(** A listing of names, one per line, splits back into the names. *)
Theorem split_lf_listing (names : list string) :
  names <> [] ->
  Forall (fun name => free_of LF name = true) names ->
  split_lf (String.concat nl names) = names.
Proof.
  intros Hne Hfree. induction names as [| a rest IH]; [ contradiction | ].
  apply Forall_cons_iff in Hfree as [Ha Hrest].
  destruct rest as [| b rest].
  - simpl. now apply split_lf_single.
  - change (String.concat nl (a :: b :: rest))
      with (a ++ nl ++ String.concat nl (b :: rest)).
    rewrite (split_lf_line _ _ Ha). f_equal. apply IH; [ discriminate | exact Hrest ].
Qed.

(* ===================================================================== *)
(** ** What a computation adds to the log *)
(* ===================================================================== *)

Section Footprints.

Context {W : Type} (P : event -> Prop).

Lemma only_ret {A} (a : A) : only_events P (ret (W := W) a).
Proof. intros s. exists []. split; [ reflexivity | constructor ]. Qed.

Lemma only_raise {A} e : only_events P (raise (W := W) (A := A) e).
Proof. intros s. exists []. split; [ reflexivity | constructor ]. Qed.

Lemma only_emit ev : P ev -> only_events P (emit (W := W) ev).
Proof. intros H s. exists [ev]. split; [ reflexivity | now repeat constructor ]. Qed.

Lemma only_os_call {A} ev (f : W -> os_result A * W) :
  P ev -> only_events P (os_call ev f).
Proof.
  intros H s. exists [ev]. unfold os_call.
  destruct (f (world s)) as [[a | text] w'];
    (split; [ reflexivity | now repeat constructor ]).
Qed.

Lemma only_os_read {A} (f : W -> A) : only_events P (os_read f).
Proof. intros s. exists []. split; [ reflexivity | constructor ]. Qed.

Lemma only_bind {A B} (m : M W A) (k : A -> M W B) :
  only_events P m -> (forall a, only_events P (k a)) -> only_events P (bind m k).
Proof.
  intros Hm Hk s. unfold bind.
  destruct (Hm s) as (l1 & H1 & F1).
  destruct (m s) as [[a | e] s1]; simpl in *.
  - destruct (Hk a s1) as (l2 & H2 & F2). exists (l2 ++ l1)%list. split.
    + rewrite H2, H1. apply app_assoc.
    + apply Forall_app. now split.
  - exists l1. now split.
Qed.

Lemma only_try_except {A} (m : M W A) h :
  only_events P m -> (forall e k, h e = Some k -> only_events P k) ->
  only_events P (try_except m h).
Proof.
  intros Hm Hh s. unfold try_except.
  destruct (Hm s) as (l1 & H1 & F1).
  destruct (m s) as [[a | e] s1]; simpl in *.
  - exists l1. now split.
  - destruct (h e) as [k |] eqn:Hk; simpl.
    + destruct (Hh e k Hk s1) as (l2 & H2 & F2). exists (l2 ++ l1)%list. split.
      * rewrite H2, H1. apply app_assoc.
      * apply Forall_app. now split.
    + exists l1. now split.
Qed.

Lemma only_try_Exception {A} (m : M W A) h :
  only_events P m -> (forall e, only_events P (h e)) ->
  only_events P (try_except m (except_Exception h)).
Proof.
  intros Hm Hh. apply only_try_except; [ exact Hm | ].
  intros e k. unfold except_Exception.
  destruct (is_Exception e); [ | discriminate ].
  intros [= <-]. apply Hh.
Qed.

Lemma only_try_all {A} (m h : M W A) :
  only_events P m -> only_events P h ->
  only_events P (try_except m (except_all h)).
Proof.
  intros Hm Hh. apply only_try_except; [ exact Hm | ].
  intros e k [= <-]. exact Hh.
Qed.

Lemma only_if {A} (b : bool) (m1 m2 : M W A) :
  only_events P m1 -> only_events P m2 -> only_events P (if b then m1 else m2).
Proof. destruct b; auto. Qed.

(** The runner adds the start of its command and, at most, two prints. *)
Lemma only_run_command (env : Env W) root command cwd check :
  (forall text, P (EPrint text)) ->
  P (ESpawn command (cwd_or_root root cwd)) ->
  only_events P (run_command env root command cwd check).
Proof.
  intros Hprint Hspawn. unfold run_command, subprocess_run.
  apply only_try_except.
  - apply only_bind; [ | intros result; apply only_ret ].
    apply only_bind; [ now apply only_os_call | intros result ].
    apply only_if; [ apply only_raise | apply only_ret ].
  - intros e k. destruct e; simpl; try discriminate.
    intros [= <-].
    apply only_bind; [ apply only_emit, Hprint | intros _ ].
    apply only_bind; [ apply only_emit, Hprint | intros _ ].
    apply only_bind; [ | intros _; apply only_ret ].
    apply only_if; [ apply only_raise | apply only_ret ].
Qed.

End Footprints.

(** A larger set of interactions holds what a smaller one holds. *)
Lemma only_events_weaken {W A} (P Q : event -> Prop) (m : M W A) :
  (forall ev, P ev -> Q ev) -> only_events P m -> only_events Q m.
Proof.
  intros HPQ Hm s. destruct (Hm s) as (recent & Hlog & HP).
  exists recent. split; [ exact Hlog | ].
  eapply Forall_impl; [ exact HPQ | exact HP ].
Qed.

(** The footprint of a computation, through its sequencing, branching,
    handlers and calls of the runner; what is left are the facts that the
    single interactions are allowed. *)
Ltac footprint :=
  unfold print_header, print_success, print_error, print_info, print_warning,
         print, input, sys_exit, strip_attr;
  repeat match goal with
         | |- only_events _ (bind _ _) => apply only_bind; [ | intros ? ]
         | |- only_events _ (if _ then _ else _) => apply only_if
         | |- only_events _ (try_except _ (except_Exception _)) =>
             apply only_try_Exception; [ | intros ? ]
         | |- only_events _ (try_except _ (except_all _)) => apply only_try_all
         | |- only_events _ (run_command _ _ _ _ _) => apply only_run_command
         | |- only_events _ (ret _) => apply only_ret
         | |- only_events _ (raise _) => apply only_raise
         | |- only_events _ (emit _) => apply only_emit
         | |- only_events _ (os_call _ _) => apply only_os_call
         | |- only_events _ (os_read _) => apply only_os_read
         | |- only_events _ (match ?x with _ => _ end) => destruct x
         end.

(* ===================================================================== *)
(** ** The footprint of the script *)
(* ===================================================================== *)

Section ScriptFootprint.

Context {W : Type} (env : Env W) (PROJECT_ROOT : string).

Lemma only_bind_read {A B} (P : event -> Prop) (f : W -> A) (k : A -> M W B) :
  (forall w, only_events P (k (f w))) -> only_events P (bind (os_read f) k).
Proof. intros H s. exact (H (world s) s). Qed.

Lemma only_show_help : only_events help_event (show_help (W := W)).
Proof. unfold show_help. footprint; exact I. Qed.

Lemma only_deploy_frontend :
  only_events (frontend_event PROJECT_ROOT) (deploy_frontend env PROJECT_ROOT).
Proof.
  unfold deploy_frontend, build_and_publish, check_git_status.
  footprint; cbn; auto 8.
Qed.

Lemma only_deploy_backend :
  only_events (backend_event PROJECT_ROOT) (deploy_backend env PROJECT_ROOT).
Proof.
  unfold deploy_backend, offer_commit, commit_changes, push_to_heroku, check_git_status.
  footprint; cbn; auto 8.
  split; [ reflexivity | right; eexists; reflexivity ].
Qed.

Lemma only_check_status :
  only_events (status_event PROJECT_ROOT) (check_status env PROJECT_ROOT).
Proof.
  unfold check_status, check_github_pages, check_heroku, report_git_status.
  footprint; cbn; auto 8.
Qed.

(** The server directory is never the empty path, so [cwd or PROJECT_ROOT]
    keeps it. *)
Lemma cwd_or_root_server :
  cwd_or_root PROJECT_ROOT (Some (SERVER_DIR PROJECT_ROOT)) = SERVER_DIR PROJECT_ROOT.
Proof.
  unfold cwd_or_root, SERVER_DIR, join. cbn [starts_with_slash].
  destruct PROJECT_ROOT as [| c r]; [ reflexivity | ].
  cbn [truthy negb orb].
  destruct (ends_with_slash (String c r)); reflexivity.
Qed.

Lemma only_update_dependencies :
  only_events (update_event PROJECT_ROOT) (update_dependencies env PROJECT_ROOT).
Proof.
  unfold update_dependencies. footprint; try rewrite cwd_or_root_server; cbn; auto 8.
Qed.

Lemma only_copy_untracked_backup backup_dir untracked_files :
  only_events (backup_event PROJECT_ROOT) (copy_untracked env backup_dir untracked_files).
Proof.
  induction untracked_files as [| file rest IH]; cbn [copy_untracked].
  - apply only_ret.
  - apply only_bind; [ | intros _; exact IH ].
    footprint; exact I.
Qed.

Lemma only_create_backup :
  only_events (backup_event PROJECT_ROOT) (create_backup env PROJECT_ROOT).
Proof.
  unfold create_backup.
  apply only_bind; [ footprint; exact I | intros _ ].
  apply only_bind_read. intros w.
  assert (Hdir : is_backup_dir ("backup_" ++ strftime_stamp (now env w)))
    by (now exists (now env w)).
  unfold guarded_backup, backup_steps, check_git_status.
  footprint; try apply only_copy_untracked_backup; cbn; auto 8.
  - split; [ reflexivity | right; eexists; split; [ exact Hdir | now left ] ].
  - split; [ reflexivity | right; eexists; split; [ exact Hdir | now right ] ].
Qed.

(** The interactions of a run are those of the action its command selects;
    without a command, or with an unknown one, the script only prints. *)
Lemma only_main (argv : list string) :
  only_events (script_event PROJECT_ROOT (command_of env argv)) (main env PROJECT_ROOT argv).
Proof.
  destruct argv as [| prog [| arg rest]];
    [ exact only_show_help | exact only_show_help | ].
  unfold main, script_event. cbn [command_of].
  destruct (String.eqb (lower env arg) "deploy-frontend").
  { apply only_bind; [ apply only_deploy_frontend | intros _; apply only_ret ]. }
  destruct (String.eqb (lower env arg) "deploy-backend").
  { apply only_bind; [ apply only_deploy_backend | intros _; apply only_ret ]. }
  destruct (String.eqb (lower env arg) "deploy-all").
  { unfold deploy_all.
    apply only_bind;
      [ eapply only_events_weaken; [ | apply only_deploy_frontend ]; now left
      | intros frontend_ok ].
    apply only_bind;
      [ eapply only_events_weaken; [ | apply only_deploy_backend ]; now right
      | intros backend_ok ].
    footprint; now left. }
  destruct (String.eqb (lower env arg) "status"); [ apply only_check_status | ].
  destruct (String.eqb (lower env arg) "update-deps"); [ apply only_update_dependencies | ].
  destruct (String.eqb (lower env arg) "backup"); [ apply only_create_backup | ].
  destruct (existsb (String.eqb (lower env arg)) ["help"; "--help"; "-h"]);
    [ apply only_show_help | ].
  apply only_bind; [ footprint; exact I | intros _; apply only_show_help ].
Qed.

End ScriptFootprint.

Section ScriptNever.

Context {W : Type} (env : Env W) (PROJECT_ROOT : string).

(** Splitting on the command of a run, as [main] does. *)
Ltac by_command c :=
  unfold script_event;
  destruct (String.eqb_spec c "deploy-frontend") as [-> | ?];
  [ | destruct (String.eqb_spec c "deploy-backend") as [-> | ?];
      [ | destruct (String.eqb_spec c "deploy-all") as [-> | ?];
          [ | destruct (String.eqb_spec c "status") as [-> | ?];
              [ | destruct (String.eqb_spec c "update-deps") as [-> | ?];
                  [ | destruct (String.eqb_spec c "backup") as [-> | ?] ] ] ] ] ].

(** Every shell command a run of the script starts, whatever its
    arguments and whatever the environment answers, is one of the eight
    fixed command lines, the commit with the message typed, or the export
    into or compression of a directory [backup_<stamp>]; and it is started
    in the project root, except [npm update], which is also started in the
    server directory. *)
Theorem script_shell_commands (argv : list string) :
  only_events (shell_event PROJECT_ROOT) (main env PROJECT_ROOT argv).
Proof.
  eapply only_events_weaken; [ | apply only_main ].
  intros ev. generalize (command_of env argv) as c. intros c.
  by_command c; destruct ev as [t | p | command cwd | u t | p | a b | p];
    cbn; try tauto;
    intros H; decompose [and or ex] H; clear H; subst; try contradiction;
    (split;
     [ first [ now left | right; now split ]
     | unfold fixed_shell_commands; cbn; eauto 15 ]).
Qed.

(** The script itself calls [input] in the three deploy commands only: in
    a run of [help], [status], [update-deps], [backup], of an unknown
    command or without a command it never does.  (What the shell commands
    it starts read is theirs.) *)
Theorem script_reads_input_only_to_deploy (argv : list string) :
  only_events (input_event (command_of env argv)) (main env PROJECT_ROOT argv).
Proof.
  eapply only_events_weaken; [ | apply only_main ].
  intros ev. generalize (command_of env argv) as c. intros c.
  by_command c; destruct ev as [t | p | command cwd | u t | p | a b | p];
    cbn; tauto.
Qed.

(** The script itself calls [os.makedirs], [shutil.copy2] and
    [shutil.rmtree] in the backup command only, and the one path it ever
    gives to [shutil.rmtree] is a directory named [backup_<stamp>].  (What
    the shell commands it starts do to files is theirs.) *)
Theorem script_touches_files_only_for_backup (argv : list string) :
  only_events (files_event (command_of env argv)) (main env PROJECT_ROOT argv).
Proof.
  eapply only_events_weaken; [ | apply only_main ].
  intros ev. generalize (command_of env argv) as c. intros c.
  by_command c; destruct ev as [t | p | command cwd | u t | p | a b | p];
    cbn; tauto.
Qed.

(** The script itself calls [requests.get] in the status command only: on
    the GitHub Pages URL and on the API health URL, with a timeout of ten
    seconds.  (What the shell commands it starts send is theirs.) *)
Theorem script_requests_only_for_status (argv : list string) :
  only_events (http_event (command_of env argv)) (main env PROJECT_ROOT argv).
Proof.
  eapply only_events_weaken; [ | apply only_main ].
  intros ev. generalize (command_of env argv) as c. intros c.
  by_command c; destruct ev as [t | p | command cwd | u t | p | a b | p];
    cbn; tauto.
Qed.

End ScriptNever.

(* ===================================================================== *)
(** ** Exit codes *)
(* ===================================================================== *)

Section ExitCodes.

Context {W : Type} (env : Env W) (PROJECT_ROOT : string).

Lemma strictly_raise_exception {A} text :
  exits_only_strictly (W := W) (A := A) PROJECT_ROOT (raise (PyException text)).
Proof. intros s. exact I. Qed.

Lemma strictly_if {A} (b : bool) (m1 m2 : M W A) :
  exits_only_strictly PROJECT_ROOT m1 -> exits_only_strictly PROJECT_ROOT m2 ->
  exits_only_strictly PROJECT_ROOT (if b then m1 else m2).
Proof. destruct b; auto. Qed.

(** The lenient runner never exits. *)
Lemma strictly_run_command_lenient command cwd :
  exits_only_strictly PROJECT_ROOT (run_command env PROJECT_ROOT command cwd false).
Proof.
  intros s.
  destruct (spawn env command (cwd_or_root PROJECT_ROOT cwd) (world s))
    as [[result | text] w'] eqn:Hspawn.
  - now rewrite (run_command_returns env PROJECT_ROOT _ _ false _ _ _ Hspawn (or_introl eq_refl)).
  - now rewrite (run_command_spawn_error env PROJECT_ROOT _ _ false _ _ _ Hspawn).
Qed.

Lemma strictly_try_Exception {A} (m : M W A) h :
  exits_only_strictly PROJECT_ROOT m ->
  (forall e, exits_only_strictly PROJECT_ROOT (h e)) ->
  exits_only_strictly PROJECT_ROOT (try_except m (except_Exception h)).
Proof.
  intros Hm Hh s. unfold try_except, except_Exception. specialize (Hm s).
  destruct (m s) as [[a | e] s1]; [ exact I | ].
  destruct e as [code | rc cmd out err | text]; cbn; [ exact Hm | apply Hh | apply Hh ].
Qed.

Lemma strictly_try_all {A} (m h : M W A) :
  exits_only_strictly PROJECT_ROOT h ->
  exits_only_strictly PROJECT_ROOT (try_except m (except_all h)).
Proof.
  intros Hh s. unfold try_except, except_all.
  destruct (m s) as [[a | e] s1]; [ exact I | apply Hh ].
Qed.

Ltac strictly :=
  unfold print_header, print_success, print_error, print_info, print_warning,
         print, input;
  repeat match goal with
         | |- exits_only_strictly _ (bind _ _) => apply strictly_bind; [ | intros ? ]
         | |- exits_only_strictly _ (if _ then _ else _) => apply strictly_if
         | |- exits_only_strictly _ (try_except _ (except_Exception _)) =>
             apply strictly_try_Exception; [ | intros ? ]
         | |- exits_only_strictly _ (try_except _ (except_all _)) => apply strictly_try_all
         | |- exits_only_strictly _ (run_command _ _ _ None true) =>
             apply strictly_run_command
         | |- exits_only_strictly _ (run_command _ _ _ _ false) =>
             apply strictly_run_command_lenient
         | |- exits_only_strictly _ (strip_attr _) => apply strictly_strip_attr
         | |- exits_only_strictly _ (ret _) => apply strictly_ret
         | |- exits_only_strictly _ (raise (PyException _)) => apply strictly_raise_exception
         | |- exits_only_strictly _ (emit _) => apply strictly_emit
         | |- exits_only_strictly _ (os_call _ _) => apply strictly_os_call
         | |- exits_only_strictly _ (os_read _) => apply strictly_os_read
         | |- exits_only_strictly _ (match ?x with _ => _ end) => destruct x
         end.

Lemma strictly_check_git_status :
  exits_only_strictly PROJECT_ROOT (check_git_status env PROJECT_ROOT).
Proof. unfold check_git_status. strictly. Qed.

Lemma strictly_deploy_frontend :
  exits_only_strictly PROJECT_ROOT (deploy_frontend env PROJECT_ROOT).
Proof.
  unfold deploy_frontend, build_and_publish.
  strictly; apply strictly_check_git_status.
Qed.

Lemma strictly_deploy_backend :
  exits_only_strictly PROJECT_ROOT (deploy_backend env PROJECT_ROOT).
Proof.
  unfold deploy_backend, offer_commit, commit_changes, push_to_heroku.
  strictly; apply strictly_check_git_status.
Qed.

Lemma strictly_check_status :
  exits_only_strictly PROJECT_ROOT (check_status env PROJECT_ROOT).
Proof.
  unfold check_status, check_github_pages, check_heroku, report_git_status. strictly.
Qed.

Lemma strictly_update_dependencies :
  exits_only_strictly PROJECT_ROOT (update_dependencies env PROJECT_ROOT).
Proof. unfold update_dependencies. strictly. Qed.

Lemma strictly_create_backup :
  exits_only_strictly PROJECT_ROOT (create_backup env PROJECT_ROOT).
Proof.
  unfold create_backup, guarded_backup.
  strictly; first [ apply strictly_check_git_status | apply strictly_backup_steps ].
Qed.

Lemma strictly_show_help : exits_only_strictly PROJECT_ROOT (show_help (W := W)).
Proof. unfold show_help. strictly. Qed.

Lemma strictly_main (argv : list string) :
  exits_only_strictly PROJECT_ROOT (main env PROJECT_ROOT argv).
Proof.
  destruct argv as [| prog [| arg rest]];
    [ apply strictly_show_help | apply strictly_show_help | ].
  unfold main, deploy_all.
  strictly;
    first [ apply strictly_deploy_frontend | apply strictly_deploy_backend
          | apply strictly_check_status | apply strictly_update_dependencies
          | apply strictly_create_backup | apply strictly_show_help ].
Qed.

(** Whatever the arguments and whatever the environment does, the script
    ends with exit code 0 or 1; it ends by [sys.exit] only with code 1, and
    then the last things it did were to start a shell command under the
    strict flag and print its failure line and its standard error. *)
Theorem script_exit_codes (argv : list string) (s : state W) :
  (exit_code (fst (main env PROJECT_ROOT argv s)) = 0
   \/ exit_code (fst (main env PROJECT_ROOT argv s)) = 1)
  /\ forall code,
       fst (main env PROJECT_ROOT argv s) = Raise (SystemExit code) ->
       code = 1 /\ exit_trail PROJECT_ROOT (snd (main env PROJECT_ROOT argv s)).
Proof.
  pose proof (strictly_main argv s) as H.
  destruct (main env PROJECT_ROOT argv s) as [[[] | e] s']; cbn [fst snd exit_code].
  - split; [ now left | discriminate ].
  - destruct e as [code | rc cmd out err | text].
    + destruct H as [-> Htrail]. split; [ now right | ].
      intros code [= <-]. now split.
    + split; [ now right | discriminate ].
    + split; [ now right | discriminate ].
Qed.

End ExitCodes.

(* ===================================================================== *)
(** ** The runner and the dirtiness check, once more *)
(* ===================================================================== *)

Section RunnerResults.

Context {W : Type} (env : Env W) (PROJECT_ROOT : string).

(** A call of the runner that returns has a standard output to give (the
    [None] of the handler's [return] is never seen), and under the strict
    flag the exit code it returns is 0. *)
Theorem run_command_result command cwd check (s s' : state W) stdout stderr code :
  run_command env PROJECT_ROOT command cwd check s = (Ret (stdout, stderr, code), s') ->
  (exists text, stdout = Some text) /\ (check = true -> code = 0).
Proof.
  intros H.
  destruct (spawn env command (cwd_or_root PROJECT_ROOT cwd) (world s))
    as [[result | text] w'] eqn:Hspawn.
  - destruct check.
    + destruct (Z.eq_dec (proc_returncode result) 0) as [Hrc | Hrc].
      * rewrite (run_command_returns env PROJECT_ROOT _ _ true _ _ _ Hspawn (or_intror Hrc)) in H.
        injection H as <- _ <- _. split; [ eauto | auto ].
      * rewrite (run_command_strict_failure env PROJECT_ROOT _ _ _ _ _ Hspawn Hrc) in H.
        discriminate.
    + rewrite (run_command_returns env PROJECT_ROOT _ _ false _ _ _ Hspawn (or_introl eq_refl)) in H.
      injection H as <- _ _ _. split; [ eauto | discriminate ].
  - rewrite (run_command_spawn_error env PROJECT_ROOT _ _ check _ _ _ Hspawn) in H.
    discriminate.
Qed.

(** The dirtiness check, once [git status --porcelain] has run: after an
    exit code 0 the tree is dirty exactly when the output has a character
    that is no whitespace; after any other exit code the program ends with
    [sys.exit(1)]. *)
Theorem check_git_status_reports (s : state W) result w' :
  spawn env "git status --porcelain" PROJECT_ROOT (world s) = (inl result, w') ->
  check_git_status env PROJECT_ROOT s =
    if proc_returncode result =? 0 then
      (Ret (truthy (strip (proc_stdout result))),
       logged s w' [ESpawn "git status --porcelain" PROJECT_ROOT])
    else
      (Raise (SystemExit 1),
       logged s w' [EPrint (proc_stderr result);
                    EPrint (error_line "Command failed: git status --porcelain");
                    ESpawn "git status --porcelain" PROJECT_ROOT]).
Proof.
  intros Hspawn. unfold check_git_status.
  destruct (Z.eqb_spec (proc_returncode result) 0) as [Hrc | Hrc].
  - rewrite (bind_ret _ _ _ _ _
               (run_command_returns env PROJECT_ROOT _ None true _ _ _ Hspawn (or_intror Hrc))).
    cbn [strip_attr]. exec. now rewrite strip_idempotent.
  - now rewrite (bind_raise _ _ _ _ _
                   (run_command_strict_failure env PROJECT_ROOT _ None _ _ _ Hspawn Hrc)).
Qed.

(** The end of the status command, once [git status -s] has run: after an
    exit code 0 a clean tree is reported when the output is blank, and the
    warning with the stripped output otherwise; after any other exit code
    the program ends with [sys.exit(1)]. *)
Theorem report_git_status_reports (s : state W) result w' :
  spawn env "git status -s" PROJECT_ROOT (world s) = (inl result, w') ->
  report_git_status env PROJECT_ROOT s =
    if proc_returncode result =? 0 then
      (Ret tt,
       logged s w'
         (if truthy (strip (proc_stdout result))
          then [EPrint (strip (proc_stdout result));
                EPrint (warning_line "You have uncommitted changes:");
                ESpawn "git status -s" PROJECT_ROOT]
          else [EPrint (success_line "Git repository is clean");
                ESpawn "git status -s" PROJECT_ROOT]))
    else
      (Raise (SystemExit 1),
       logged s w' [EPrint (proc_stderr result);
                    EPrint (error_line "Command failed: git status -s");
                    ESpawn "git status -s" PROJECT_ROOT]).
Proof.
  intros Hspawn. unfold report_git_status.
  destruct (Z.eqb_spec (proc_returncode result) 0) as [Hrc | Hrc].
  - rewrite (bind_ret _ _ _ _ _
               (run_command_returns env PROJECT_ROOT _ None true _ _ _ Hspawn (or_intror Hrc))).
    destruct (truthy (strip (proc_stdout result))); reflexivity.
  - now rewrite (bind_raise _ _ _ _ _
                   (run_command_strict_failure env PROJECT_ROOT _ None _ _ _ Hspawn Hrc)).
Qed.

End RunnerResults.

(* ===================================================================== *)
(** ** The frontend deploy and the dependency update *)
(* ===================================================================== *)

Section Frontend.

Context {W : Type} (env : Env W) (PROJECT_ROOT : string).

(** The frontend deploy on a dirty tree reads one answer.  With any answer
    but [y] (in any case) it prints that the deployment is cancelled and
    returns false without starting a command; with [y] it goes on to
    build and publish. *)
Theorem deploy_frontend_asks_on_dirty_tree (s s1 : state W) answer w2 :
  check_git_status env PROJECT_ROOT
    (logged s (world s) [EPrint (header_line "Deploying Frontend to GitHub Pages")])
    = (Ret true, s1) ->
  read_input env continue_prompt (world s1) = (inl answer, w2) ->
  let asked := logged s1 w2 [EInput continue_prompt; EPrint uncommitted_warning] in
  deploy_frontend env PROJECT_ROOT s =
    if String.eqb (lower env answer) "y"
    then build_and_publish env PROJECT_ROOT asked
    else (Ret false, logged asked w2 [EPrint (info_line "Deployment cancelled.")]).
Proof.
  intros Hdirty Hanswer asked. unfold deploy_frontend.
  erewrite bind_ret by reflexivity.
  rewrite (bind_ret _ _ _ _ _ Hdirty). exec.
  fold continue_prompt. rewrite Hanswer.
  destruct (String.eqb (lower env answer) "y"); reflexivity.
Qed.

(** Building and publishing.  A build that exits non-zero is reported with
    its standard error and ends the deploy with false: nothing is
    published.  After a build that exits with 0 the site is published;
    the deploy returns true exactly when the publish command exits with 0,
    and then prints the site's URL. *)
Theorem build_and_publish_outcomes (s : state W) built w1 :
  spawn env "npm run build" PROJECT_ROOT (world s) = (inl built, w1) ->
  (proc_returncode built <> 0 ->
   build_and_publish env PROJECT_ROOT s =
     (Ret false,
      logged s w1 [EPrint (strip (proc_stderr built));
                   EPrint (error_line "Frontend build failed:");
                   ESpawn "npm run build" PROJECT_ROOT;
                   EPrint (info_line "Building frontend...")]))
  /\ (proc_returncode built = 0 ->
      forall published w2,
        spawn env publish_command PROJECT_ROOT w1 = (inl published, w2) ->
        build_and_publish env PROJECT_ROOT s =
          (Ret (proc_returncode published =? 0),
           logged s w2
             ((if proc_returncode published =? 0
               then [EPrint (info_line ("Frontend URL: " ++ GITHUB_PAGES_URL));
                     EPrint (success_line "Frontend deployed to GitHub Pages")]
               else [EPrint (strip (proc_stderr published));
                     EPrint (error_line "GitHub Pages deployment failed:")])
              ++ [ESpawn publish_command PROJECT_ROOT;
                  EPrint (info_line "Deploying to GitHub Pages...");
                  EPrint (success_line "Frontend built successfully");
                  ESpawn "npm run build" PROJECT_ROOT;
                  EPrint (info_line "Building frontend...")]))).
Proof.
  intros Hbuild. split.
  - intros Hrc. unfold build_and_publish. exec. run_ok Hbuild.
    apply Z.eqb_neq in Hrc. rewrite Hrc. reflexivity.
  - intros Hrc published w2 Hpublish. unfold build_and_publish. exec.
    run_ok Hbuild. rewrite Hrc. cbn [Z.eqb negb].
    fold publish_command. run_ok Hpublish.
    destruct (proc_returncode published =? 0); reflexivity.
Qed.

(** Updating the dependencies runs [npm update] in the project root and
    then in the server directory, whatever the first run's exit code was;
    each exit code only chooses the line printed, and the command
    returns. *)
Theorem update_dependencies_runs_both (s : state W) first w1 second w2 :
  spawn env "npm update" PROJECT_ROOT (world s) = (inl first, w1) ->
  spawn env "npm update" (SERVER_DIR PROJECT_ROOT) w1 = (inl second, w2) ->
  update_dependencies env PROJECT_ROOT s =
    (Ret tt,
     logged s w2
       ((if proc_returncode second =? 0
         then [EPrint (success_line "Backend dependencies updated")]
         else [EPrint (strip (proc_stderr second));
               EPrint (error_line "Backend dependency update failed:")])
        ++ [ESpawn "npm update" (SERVER_DIR PROJECT_ROOT);
            EPrint (info_line "Updating backend dependencies...")]
        ++ (if proc_returncode first =? 0
            then [EPrint (success_line "Frontend dependencies updated")]
            else [EPrint (strip (proc_stderr first));
                  EPrint (error_line "Frontend dependency update failed:")])
        ++ [ESpawn "npm update" PROJECT_ROOT;
            EPrint (info_line "Updating frontend dependencies...");
            EPrint (header_line "Updating Dependencies")])).
Proof.
  intros Hfirst Hsecond. unfold update_dependencies. exec.
  run_ok Hfirst.
  assert (Hsecond' : forall w,
            w = w1 ->
            spawn env "npm update"
              (cwd_or_root PROJECT_ROOT (Some (SERVER_DIR PROJECT_ROOT))) w
            = (inl second, w2))
    by (intros w ->; now rewrite cwd_or_root_server).
  destruct (proc_returncode first =? 0); cbn [negb]; exec;
    (erewrite run_command_returns; [ | apply Hsecond'; reflexivity | auto ]);
    rewrite cwd_or_root_server; exec;
    destruct (proc_returncode second =? 0); reflexivity.
Qed.

(** The lenient runner does not shield from a command that cannot be
    started: when the server directory is missing, the exception of the
    second [npm update] leaves the command uncaught and the program ends
    with a traceback and exit code 1. *)
Theorem update_dependencies_spawn_error (prog : string) (s : state W) first w1 text w2 :
  spawn env "npm update" PROJECT_ROOT (world s) = (inl first, w1) ->
  spawn env "npm update" (SERVER_DIR PROJECT_ROOT) w1 = (inr text, w2) ->
  fst (main env PROJECT_ROOT [prog; "update-deps"] s) = Raise (PyException text)
  /\ exit_code (fst (main env PROJECT_ROOT [prog; "update-deps"] s)) = 1.
Proof.
  intros Hfirst Hsecond.
  rewrite main_update_deps.
  assert (H : fst (update_dependencies env PROJECT_ROOT s) = Raise (PyException text)).
  { unfold update_dependencies. exec. run_ok Hfirst.
    assert (Hsecond' : forall w,
              w = w1 ->
              spawn env "npm update"
                (cwd_or_root PROJECT_ROOT (Some (SERVER_DIR PROJECT_ROOT))) w
              = (inr text, w2))
      by (intros w ->; now rewrite cwd_or_root_server).
    destruct (proc_returncode first =? 0); cbn [negb]; exec;
      (erewrite run_command_spawn_error; [ | apply Hsecond'; reflexivity ]);
      reflexivity. }
  split; [ exact H | now rewrite H ].
Qed.

End Frontend.

(* ===================================================================== *)
(** ** The commit stage, the dispatcher and the backup, once more *)
(* ===================================================================== *)

Section MoreActions.

Context {W : Type} (env : Env W) (PROJECT_ROOT : string).

(** The commit stage when everything goes well (dirty tree, answer [y], a
    message, [git add .] and [git commit] exiting with 0): the two
    commands run in this order, the message goes between double quotes
    into the commit command as it was typed, the success line is printed,
    and the backend deploy continues with the push. *)
Theorem commit_stage_commits (s s1 : state W) answer w2 commit_msg w3 added w4 committed w5 :
  check_git_status env PROJECT_ROOT
    (logged s (world s) [EPrint (header_line "Deploying Backend to Heroku")])
    = (Ret true, s1) ->
  read_input env commit_prompt (world s1) = (inl answer, w2) ->
  lower env answer = "y" ->
  read_input env message_prompt w2 = (inl commit_msg, w3) ->
  spawn env "git add ." PROJECT_ROOT w3 = (inl added, w4) ->
  proc_returncode added = 0 ->
  spawn env ("git commit -m " ++ dquote ++ commit_msg ++ dquote) PROJECT_ROOT w4
    = (inl committed, w5) ->
  proc_returncode committed = 0 ->
  let done :=
    logged s1 w5 [EPrint (success_line "Changes committed");
                  ESpawn ("git commit -m " ++ dquote ++ commit_msg ++ dquote) PROJECT_ROOT;
                  ESpawn "git add ." PROJECT_ROOT;
                  EInput message_prompt; EInput commit_prompt;
                  EPrint uncommitted_warning] in
  offer_commit env PROJECT_ROOT s = (Ret tt, done)
  /\ deploy_backend env PROJECT_ROOT s = push_to_heroku env PROJECT_ROOT done.
Proof.
  intros Hdirty Hanswer Hyes Hmsg Hadd Hrc Hcommit Hrc' done.
  assert (Hoffer : offer_commit env PROJECT_ROOT s = (Ret tt, done)).
  { transitivity (commit_changes env PROJECT_ROOT
                    (logged s1 w2 [EInput commit_prompt; EPrint uncommitted_warning])).
    - unfold offer_commit. erewrite bind_ret by reflexivity.
      rewrite (bind_ret _ _ _ _ _ Hdirty). exec.
      fold commit_prompt. rewrite Hanswer, Hyes. reflexivity.
    - unfold commit_changes. exec. fold message_prompt. rewrite Hmsg. exec.
      run_ok Hadd. unfold commit_command. run_ok Hcommit. reflexivity. }
  split; [ exact Hoffer | ].
  unfold deploy_backend. now rewrite (bind_ret _ _ _ _ _ Hoffer).
Qed.

(** The dispatcher looks at nothing but the lowercase form of its first
    argument: two argument lists whose first arguments have the same
    lowercase form give the same run, whatever the script's name and the
    further arguments are.  For an ASCII argument that form is the
    argument with A-Z mapped to a-z. *)
Theorem main_reads_lowercased_command (prog prog' arg arg' : string)
    (rest rest' : list string) (s : state W) :
  lower env arg = lower env arg' ->
  main env PROJECT_ROOT (prog :: arg :: rest) s
  = main env PROJECT_ROOT (prog' :: arg' :: rest') s
  /\ (is_ascii arg = true ->
      main env PROJECT_ROOT (prog :: arg :: rest) s
      = main env PROJECT_ROOT (prog' :: lower_ascii arg :: rest') s).
Proof.
  intros Hsame. split.
  - unfold main. now rewrite Hsame.
  - intros Hascii. unfold main.
    rewrite (lower_on_ascii env arg Hascii).
    rewrite (lower_on_ascii env (lower_ascii arg) (is_ascii_lower_ascii arg Hascii)).
    now rewrite lower_ascii_idempotent.
Qed.

(** The untracked files loop makes directories and copies and does
    nothing else; each copy takes a listed, non-empty name to the same
    relative path below the backup directory, and each directory made is
    the one such a name lies in below the backup directory. *)
Theorem copy_untracked_copies_listed_names backup_dir (names : list string) :
  only_events (copy_event backup_dir names) (copy_untracked env backup_dir names).
Proof.
  induction names as [| file rest IH]; cbn [copy_untracked].
  - apply only_ret.
  - apply only_bind.
    + destruct file as [| c r]; cbn [truthy]; [ apply only_ret | ].
      footprint; cbn.
      * exists (String c r). repeat split; [ now left | discriminate ].
      * repeat split; [ now left | discriminate ].
    + intros _. eapply only_events_weaken; [ | exact IH ].
      intros [t | p | command cwd | u t | p | a b | p]; cbn; try tauto.
      intros (file' & Hin & Hne & ->). exists file'. repeat split; auto.
Qed.

(** A listing without a name (the output of [git ls-files] is blank)
    makes the loop do nothing at all. *)
Theorem copy_untracked_skips_blank_names backup_dir (names : list string) (s : state W) :
  Forall (fun name => name = EmptyString) names ->
  copy_untracked env backup_dir names s = (Ret tt, s).
Proof.
  intros Hblank. induction Hblank as [| name rest -> _ IH]; [ reflexivity | ].
  cbn [copy_untracked truthy]. erewrite bind_ret by reflexivity. exact IH.
Qed.

Lemma bind_ext {A B} (m : M W A) (k k' : A -> M W B) s :
  (forall a s1, k a s1 = k' a s1) -> bind m k s = bind m k' s.
Proof. intros H. unfold bind. destruct (m s) as [[a | e] s1]; [ apply H | reflexivity ]. Qed.

(** The steps of the backup are those before the cleanup, then the
    removal of the directory and the success line. *)
Lemma backup_steps_split backup_dir (s : state W) :
  backup_steps env PROJECT_ROOT backup_dir s =
    bind (steps_before_cleanup env PROJECT_ROOT backup_dir)
         (fun _ =>
            os_call (ERmTree backup_dir) (rmtree env backup_dir) ;;
            print_success ("Backup created: " ++ backup_dir ++ ".tar.gz")) s.
Proof.
  unfold backup_steps, steps_before_cleanup. symmetry.
  rewrite bind_assoc. apply bind_ext; intros ? ?; cbv beta.
  rewrite bind_assoc. apply bind_ext; intros ? ?; cbv beta.
  rewrite bind_assoc. apply bind_ext; intros [[? ?] ?] ?; cbv beta.
  rewrite bind_assoc. apply bind_ext; intros ? ?; cbv beta.
  rewrite bind_assoc. apply bind_ext; intros ? ?; cbv beta.
  rewrite bind_assoc. apply bind_ext; intros ? ?; cbv beta.
  reflexivity.
Qed.

Lemma only_copy_untracked_no_rmtree backup_dir names :
  only_events no_rmtree (copy_untracked env backup_dir names).
Proof.
  induction names as [| file rest IH]; cbn [copy_untracked].
  - apply only_ret.
  - apply only_bind; [ footprint; exact I | intros _; exact IH ].
Qed.

Lemma only_steps_before_cleanup backup_dir :
  only_events no_rmtree (steps_before_cleanup env PROJECT_ROOT backup_dir).
Proof.
  unfold steps_before_cleanup.
  footprint; try apply only_copy_untracked_no_rmtree; try intros ?; exact I.
Qed.

(** No cleanup on failure: when the steps of the backup end with an
    exception, no directory has been removed.  Either no removal was
    attempted at all, or the removal of the backup directory is the last
    thing that was attempted and is what raised. *)
Theorem backup_failure_leaves_directory backup_dir (s s' : state W) e :
  backup_steps env PROJECT_ROOT backup_dir s = (Raise e, s') ->
  exists recent,
    log s' = (recent ++ log s)%list
    /\ (Forall no_rmtree recent
        \/ exists earlier text,
             recent = ERmTree backup_dir :: earlier
             /\ Forall no_rmtree earlier
             /\ e = PyException text
             /\ fst (rmtree env backup_dir
                       (world (snd (steps_before_cleanup env PROJECT_ROOT backup_dir s))))
                = inr text).
Proof.
  rewrite backup_steps_split. unfold bind.
  destruct (only_steps_before_cleanup backup_dir s) as (recent & Hlog & Hnone).
  destruct (steps_before_cleanup env PROJECT_ROOT backup_dir s) as [[[] | e0] s6];
    cbn [snd] in *.
  - unfold os_call.
    destruct (rmtree env backup_dir (world s6)) as [[[] | text] w''] eqn:Hrm;
      cbn [fst]; intros H.
    + discriminate.
    + injection H as <- <-. exists (ERmTree backup_dir :: recent). split.
      * cbn [log]. now rewrite Hlog.
      * right. now exists recent, text.
  - intros [= <- <-]. exists recent. split; [ exact Hlog | now left ].
Qed.

(** A prompt on a closed standard input.  When the tree is dirty and
    [input] raises (end of file), the exception leaves the backend deploy
    uncaught: nothing is committed, nothing is pushed, and the
    [deploy-backend] command ends with a traceback and exit code 1. *)
Theorem deploy_backend_prompt_fails (prog : string) (s s1 : state W) text w2 :
  check_git_status env PROJECT_ROOT
    (logged s (world s) [EPrint (header_line "Deploying Backend to Heroku")])
    = (Ret true, s1) ->
  read_input env commit_prompt (world s1) = (inr text, w2) ->
  deploy_backend env PROJECT_ROOT s =
    (Raise (PyException text),
     logged s1 w2 [EInput commit_prompt; EPrint uncommitted_warning])
  /\ exit_code (fst (main env PROJECT_ROOT [prog; "deploy-backend"] s)) = 1.
Proof.
  intros Hdirty Hanswer.
  assert (H : deploy_backend env PROJECT_ROOT s =
              (Raise (PyException text),
               logged s1 w2 [EInput commit_prompt; EPrint uncommitted_warning])).
  { apply deploy_backend_raises. unfold offer_commit.
    erewrite bind_ret by reflexivity.
    rewrite (bind_ret _ _ _ _ _ Hdirty). exec.
    fold commit_prompt. rewrite Hanswer. reflexivity. }
  split; [ exact H | ].
  rewrite main_deploy_backend.
  now rewrite (bind_raise _ _ _ _ _ H).
Qed.

(** The same for the frontend deploy: no build, no publication, exit
    code 1. *)
Theorem deploy_frontend_prompt_fails (prog : string) (s s1 : state W) text w2 :
  check_git_status env PROJECT_ROOT
    (logged s (world s) [EPrint (header_line "Deploying Frontend to GitHub Pages")])
    = (Ret true, s1) ->
  read_input env continue_prompt (world s1) = (inr text, w2) ->
  deploy_frontend env PROJECT_ROOT s =
    (Raise (PyException text),
     logged s1 w2 [EInput continue_prompt; EPrint uncommitted_warning])
  /\ exit_code (fst (main env PROJECT_ROOT [prog; "deploy-frontend"] s)) = 1.
Proof.
  intros Hdirty Hanswer.
  assert (H : deploy_frontend env PROJECT_ROOT s =
              (Raise (PyException text),
               logged s1 w2 [EInput continue_prompt; EPrint uncommitted_warning])).
  { unfold deploy_frontend. erewrite bind_ret by reflexivity.
    rewrite (bind_ret _ _ _ _ _ Hdirty). exec.
    fold continue_prompt. rewrite Hanswer. reflexivity. }
  split; [ exact H | ].
  rewrite main_deploy_frontend.
  now rewrite (bind_raise _ _ _ _ _ H).
Qed.

End MoreActions.

(* ===================================================================== *)
(** ** More runs on the reference host *)
(* ===================================================================== *)

Module MoreRuns.

Import Sim.

(** The backup that cannot write its archive ends by [sys.exit(1)]. *)
Lemma script_exit_codes_run :
  fst (main env root ["admin.py"; "backup"] (fresh disk_full)) = Raise (SystemExit 1)
  /\ 1 = 1
  /\ exit_trail root (snd (main env root ["admin.py"; "backup"] (fresh disk_full))).
Proof.
  assert (H : fst (main env root ["admin.py"; "backup"] (fresh disk_full))
              = Raise (SystemExit 1)) by (vm_compute; reflexivity).
  split; [ exact H | ].
  exact (proj2 (script_exit_codes env root ["admin.py"; "backup"] (fresh disk_full)) 1 H).
Defined.

(** A strict run of [git status] on a clean tree. *)
Lemma run_command_result_run :
  run_command env root "git status --porcelain" None true (fresh clean_repo)
    = (Ret (Some EmptyString, EmptyString, 0),
       mkState clean_repo [ESpawn "git status --porcelain" root])
  /\ (exists text, Some EmptyString = Some text)
  /\ (true = true -> 0 = 0).
Proof.
  assert (H : run_command env root "git status --porcelain" None true (fresh clean_repo)
              = (Ret (Some EmptyString, EmptyString, 0),
                 mkState clean_repo [ESpawn "git status --porcelain" root]))
    by (vm_compute; reflexivity).
  split; [ exact H | ].
  exact (run_command_result env root _ _ _ _ _ _ _ _ H).
Defined.

(** The dirtiness check on a tree with an edited file. *)
Lemma check_git_status_reports_run :
  spawn env "git status --porcelain" root (dirty_repo [] [])
    = (inl (ok (" M a.txt" ++ nl)), dirty_repo [] [])
  /\ check_git_status env root (fresh (dirty_repo [] []))
     = (Ret true, mkState (dirty_repo [] []) [ESpawn "git status --porcelain" root]).
Proof.
  assert (H : spawn env "git status --porcelain" root (world (fresh (dirty_repo [] [])))
              = (inl (ok (" M a.txt" ++ nl)), dirty_repo [] []))
    by reflexivity.
  split; [ exact H | ].
  exact (check_git_status_reports env root (fresh (dirty_repo [] [])) _ _ H).
Defined.

(** The end of the status command on the same tree. *)
Lemma report_git_status_reports_run :
  spawn env "git status -s" root (dirty_repo [] [])
    = (inl (ok (" M a.txt" ++ nl)), dirty_repo [] [])
  /\ report_git_status env root (fresh (dirty_repo [] []))
     = (Ret tt,
        mkState (dirty_repo [] [])
          [EPrint "M a.txt";
           EPrint (warning_line "You have uncommitted changes:");
           ESpawn "git status -s" root]).
Proof.
  assert (H : spawn env "git status -s" root (world (fresh (dirty_repo [] [])))
              = (inl (ok (" M a.txt" ++ nl)), dirty_repo [] []))
    by reflexivity.
  split; [ exact H | ].
  exact (report_git_status_reports env root (fresh (dirty_repo [] [])) _ _ H).
Defined.

(** The frontend deploy declined with [No]. *)
Lemma deploy_frontend_asks_on_dirty_tree_run :
  check_git_status env root (after_frontend_header frontend_declined)
    = (Ret true, snd (check_git_status env root (after_frontend_header frontend_declined)))
  /\ read_input env continue_prompt frontend_declined
     = (inl "No", set_answers frontend_declined [])
  /\ fst (deploy_frontend env root (fresh frontend_declined)) = Ret false
  /\ commands_run (snd (deploy_frontend env root (fresh frontend_declined)))
     = ["git status --porcelain"].
Proof.
  assert (Hdirty : check_git_status env root
                     (logged (fresh frontend_declined) (world (fresh frontend_declined))
                        [EPrint (header_line "Deploying Frontend to GitHub Pages")])
                   = (Ret true,
                      snd (check_git_status env root
                             (after_frontend_header frontend_declined))))
    by (vm_compute; reflexivity).
  assert (Hanswer : read_input env continue_prompt
                      (world (snd (check_git_status env root
                                     (after_frontend_header frontend_declined))))
                    = (inl "No", set_answers frontend_declined []))
    by (vm_compute; reflexivity).
  pose proof (deploy_frontend_asks_on_dirty_tree env root (fresh frontend_declined)
                _ _ _ Hdirty Hanswer) as H.
  split; [ exact Hdirty | ].
  split; [ exact Hanswer | ].
  rewrite H. split; vm_compute; reflexivity.
Defined.

(** A build that works and a publication that is refused. *)
Lemma build_and_publish_outcomes_run :
  spawn env "npm run build" root publish_refused
    = (inl (ok "Compiled successfully."), publish_refused)
  /\ spawn env publish_command root publish_refused
     = (inl (failed "fatal: Could not read from remote repository." 128), publish_refused)
  /\ fst (build_and_publish env root (fresh publish_refused)) = Ret false.
Proof.
  assert (Hbuild : spawn env "npm run build" root (world (fresh publish_refused))
                   = (inl (ok "Compiled successfully."), publish_refused))
    by reflexivity.
  assert (Hpublish : spawn env publish_command root publish_refused
                     = (inl (failed "fatal: Could not read from remote repository." 128),
                        publish_refused))
    by reflexivity.
  destruct (build_and_publish_outcomes env root (fresh publish_refused) _ _ Hbuild)
    as [_ Hbuilt].
  split; [ exact Hbuild | ].
  split; [ exact Hpublish | ].
  rewrite (Hbuilt eq_refl _ _ Hpublish). reflexivity.
Defined.

(** Both updates run on a host without npm. *)
Lemma update_dependencies_runs_both_run :
  spawn env "npm update" root clean_repo
    = (inl (failed "/bin/sh: 1: npm: not found" 127), clean_repo)
  /\ spawn env "npm update" (SERVER_DIR root) clean_repo
     = (inl (failed "/bin/sh: 1: npm: not found" 127), clean_repo)
  /\ fst (update_dependencies env root (fresh clean_repo)) = Ret tt
  /\ commands_run (snd (update_dependencies env root (fresh clean_repo)))
     = ["npm update"; "npm update"].
Proof.
  assert (H1 : spawn env "npm update" root (world (fresh clean_repo))
               = (inl (failed "/bin/sh: 1: npm: not found" 127), clean_repo))
    by reflexivity.
  assert (H2 : spawn env "npm update" (SERVER_DIR root) clean_repo
               = (inl (failed "/bin/sh: 1: npm: not found" 127), clean_repo))
    by reflexivity.
  split; [ exact H1 | ].
  split; [ exact H2 | ].
  rewrite (update_dependencies_runs_both env root (fresh clean_repo) _ _ _ _ H1 H2).
  split; reflexivity.
Defined.

(** The update on a host without the server directory. *)
Lemma update_dependencies_spawn_error_run :
  spawn env_without_server "npm update" root clean_repo
    = (inl (failed "/bin/sh: 1: npm: not found" 127), clean_repo)
  /\ spawn env_without_server "npm update" (SERVER_DIR root) clean_repo
     = (inr "[Errno 2] No such file or directory: '/srv/app/server'", clean_repo)
  /\ exit_code (fst (main env_without_server root ["admin.py"; "update-deps"]
                       (fresh clean_repo))) = 1.
Proof.
  assert (H1 : spawn env_without_server "npm update" root (world (fresh clean_repo))
               = (inl (failed "/bin/sh: 1: npm: not found" 127), clean_repo))
    by reflexivity.
  assert (H2 : spawn env_without_server "npm update" (SERVER_DIR root) clean_repo
               = (inr "[Errno 2] No such file or directory: '/srv/app/server'", clean_repo))
    by reflexivity.
  split; [ exact H1 | ].
  split; [ exact H2 | ].
  exact (proj2 (update_dependencies_spawn_error env_without_server root "admin.py"
                  (fresh clean_repo) _ _ _ _ H1 H2)).
Defined.

(** The commit stage with the message [fix typo]. *)
Lemma commit_stage_commits_run :
  check_git_status env root (after_backend_header committing)
    = (Ret true, snd (check_git_status env root (after_backend_header committing)))
  /\ read_input env commit_prompt committing = (inl "y", set_answers committing ["fix typo"])
  /\ lower env "y" = "y"
  /\ read_input env message_prompt (set_answers committing ["fix typo"])
     = (inl "fix typo", set_answers committing [])
  /\ fst (spawn env "git add ." root (set_answers committing [])) = inl (ok EmptyString)
  /\ fst (spawn env ("git commit -m " ++ dquote ++ "fix typo" ++ dquote) root
            (snd (spawn env "git add ." root (set_answers committing []))))
     = inl (ok EmptyString)
  /\ fst (offer_commit env root (fresh committing)) = Ret tt
  /\ commands_run (snd (offer_commit env root (fresh committing)))
     = ["git status --porcelain"; "git add ."; "git commit -m " ++ dquote ++ "fix typo" ++ dquote].
Proof.
  assert (Hdirty : check_git_status env root
                     (logged (fresh committing) (world (fresh committing))
                        [EPrint (header_line "Deploying Backend to Heroku")])
                   = (Ret true,
                      snd (check_git_status env root (after_backend_header committing))))
    by (vm_compute; reflexivity).
  assert (Hanswer : read_input env commit_prompt
                      (world (snd (check_git_status env root (after_backend_header committing))))
                    = (inl "y", set_answers committing ["fix typo"]))
    by (vm_compute; reflexivity).
  assert (Hyes : lower env "y" = "y") by reflexivity.
  assert (Hmsg : read_input env message_prompt (set_answers committing ["fix typo"])
                 = (inl "fix typo", set_answers committing []))
    by reflexivity.
  assert (Hadd : spawn env "git add ." root (set_answers committing [])
                 = (inl (ok EmptyString),
                    snd (spawn env "git add ." root (set_answers committing []))))
    by reflexivity.
  assert (Hcommit : spawn env ("git commit -m " ++ dquote ++ "fix typo" ++ dquote) root
                      (snd (spawn env "git add ." root (set_answers committing [])))
                    = (inl (ok EmptyString),
                       snd (spawn env ("git commit -m " ++ dquote ++ "fix typo" ++ dquote) root
                              (snd (spawn env "git add ." root (set_answers committing []))))))
    by (vm_compute; reflexivity).
  destruct (commit_stage_commits env root (fresh committing) _ _ _ _ _ _ _ _ _
              Hdirty Hanswer Hyes Hmsg Hadd eq_refl Hcommit eq_refl) as [Hoffer _].
  split; [ exact Hdirty | ].
  split; [ exact Hanswer | ].
  split; [ exact Hyes | ].
  split; [ exact Hmsg | ].
  split; [ now rewrite Hadd | ].
  split; [ now rewrite Hcommit | ].
  rewrite Hoffer. split; vm_compute; reflexivity.
Defined.

(** The blank listing. *)
Lemma copy_untracked_skips_blank_names_run :
  Forall (fun name => name = EmptyString) (split_lf (strip EmptyString))
  /\ copy_untracked env "backup_20240102_030405" (split_lf (strip EmptyString))
       (fresh clean_repo)
     = (Ret tt, fresh clean_repo).
Proof.
  assert (H : Forall (fun name => name = EmptyString) (split_lf (strip EmptyString)))
    by (repeat constructor).
  split; [ exact H | ].
  exact (copy_untracked_skips_blank_names env "backup_20240102_030405" _ (fresh clean_repo) H).
Defined.

(** The backup that cannot write its archive leaves its directory. *)
Lemma backup_failure_leaves_directory_run :
  backup_steps env root "backup_20240102_030405" (fresh disk_full)
    = (Raise (SystemExit 1),
       snd (backup_steps env root "backup_20240102_030405" (fresh disk_full)))
  /\ In "backup_20240102_030405"
        (dirs (world (snd (backup_steps env root "backup_20240102_030405" (fresh disk_full)))))
  /\ exists recent,
       log (snd (backup_steps env root "backup_20240102_030405" (fresh disk_full)))
         = (recent ++ log (fresh disk_full))%list
       /\ (Forall no_rmtree recent
           \/ exists earlier text,
                recent = ERmTree "backup_20240102_030405" :: earlier
                /\ Forall no_rmtree earlier
                /\ SystemExit 1 = PyException text
                /\ fst (rmtree env "backup_20240102_030405"
                          (world (snd (steps_before_cleanup env root
                                         "backup_20240102_030405" (fresh disk_full)))))
                   = inr text).
Proof.
  assert (H : backup_steps env root "backup_20240102_030405" (fresh disk_full)
              = (Raise (SystemExit 1),
                 snd (backup_steps env root "backup_20240102_030405" (fresh disk_full))))
    by (vm_compute; reflexivity).
  split; [ exact H | ].
  split; [ vm_compute; tauto | ].
  exact (backup_failure_leaves_directory env root _ _ _ _ H).
Defined.

(** Two names, one per line. *)
Lemma split_lf_listing_run :
  ["a.txt"; "docs/b.txt"] <> []
  /\ Forall (fun name => free_of LF name = true) ["a.txt"; "docs/b.txt"]
  /\ split_lf ("a.txt" ++ nl ++ "docs/b.txt") = ["a.txt"; "docs/b.txt"].
Proof.
  assert (Hne : ["a.txt"; "docs/b.txt"] <> []) by discriminate.
  assert (Hfree : Forall (fun name => free_of LF name = true) ["a.txt"; "docs/b.txt"])
    by (repeat constructor).
  split; [ exact Hne | ].
  split; [ exact Hfree | ].
  exact (split_lf_listing ["a.txt"; "docs/b.txt"] Hne Hfree).
Defined.

(** The backup of the clean repository. *)
Lemma create_backup_returns_run :
  create_backup env root (fresh clean_repo)
    = (Ret tt, snd (create_backup env root (fresh clean_repo)))
  /\ ((exists rest,
         log (snd (create_backup env root (fresh clean_repo))) =
           EPrint (success_line ("Backup created: "
                                 ++ ("backup_" ++ strftime_stamp (now env clean_repo))
                                 ++ ".tar.gz"))
           :: ERmTree ("backup_" ++ strftime_stamp (now env clean_repo))
           :: ESpawn ("tar -czf "
                      ++ (("backup_" ++ strftime_stamp (now env clean_repo)) ++ ".tar.gz")
                      ++ " " ++ ("backup_" ++ strftime_stamp (now env clean_repo)))
                     root
           :: rest)
      \/ (exists text rest,
            log (snd (create_backup env root (fresh clean_repo)))
            = EPrint (error_line ("Backup failed: " ++ text)) :: rest)).
Proof.
  assert (H : create_backup env root (fresh clean_repo)
              = (Ret tt, snd (create_backup env root (fresh clean_repo))))
    by (vm_compute; reflexivity).
  split; [ exact H | ].
  exact (create_backup_returns env root (fresh clean_repo) _ H).
Defined.

(** The deploys on a dirty tree with standard input closed. *)
Lemma deploy_backend_prompt_fails_run :
  check_git_status env root (after_backend_header (dirty_repo [] []))
    = (Ret true, snd (check_git_status env root (after_backend_header (dirty_repo [] []))))
  /\ read_input env commit_prompt (dirty_repo [] [])
     = (inr "EOF when reading a line", dirty_repo [] [])
  /\ fst (deploy_backend env root (fresh (dirty_repo [] [])))
     = Raise (PyException "EOF when reading a line")
  /\ exit_code (fst (main env root ["admin.py"; "deploy-backend"] (fresh (dirty_repo [] []))))
     = 1.
Proof.
  assert (Hdirty : check_git_status env root
                     (logged (fresh (dirty_repo [] [])) (world (fresh (dirty_repo [] [])))
                        [EPrint (header_line "Deploying Backend to Heroku")])
                   = (Ret true,
                      snd (check_git_status env root
                             (after_backend_header (dirty_repo [] [])))))
    by (vm_compute; reflexivity).
  assert (Hanswer : read_input env commit_prompt
                      (world (snd (check_git_status env root
                                     (after_backend_header (dirty_repo [] [])))))
                    = (inr "EOF when reading a line", dirty_repo [] []))
    by (vm_compute; reflexivity).
  destruct (deploy_backend_prompt_fails env root "admin.py" (fresh (dirty_repo [] []))
              _ _ _ Hdirty Hanswer) as [Hdeploy Hexit].
  split; [ exact Hdirty | ].
  split; [ exact Hanswer | ].
  split; [ now rewrite Hdeploy | exact Hexit ].
Defined.

Lemma deploy_frontend_prompt_fails_run :
  check_git_status env root (after_frontend_header (dirty_repo [] []))
    = (Ret true, snd (check_git_status env root (after_frontend_header (dirty_repo [] []))))
  /\ read_input env continue_prompt (dirty_repo [] [])
     = (inr "EOF when reading a line", dirty_repo [] [])
  /\ fst (deploy_frontend env root (fresh (dirty_repo [] [])))
     = Raise (PyException "EOF when reading a line")
  /\ exit_code (fst (main env root ["admin.py"; "deploy-frontend"] (fresh (dirty_repo [] []))))
     = 1.
Proof.
  assert (Hdirty : check_git_status env root
                     (logged (fresh (dirty_repo [] [])) (world (fresh (dirty_repo [] [])))
                        [EPrint (header_line "Deploying Frontend to GitHub Pages")])
                   = (Ret true,
                      snd (check_git_status env root
                             (after_frontend_header (dirty_repo [] [])))))
    by (vm_compute; reflexivity).
  assert (Hanswer : read_input env continue_prompt
                      (world (snd (check_git_status env root
                                     (after_frontend_header (dirty_repo [] [])))))
                    = (inr "EOF when reading a line", dirty_repo [] []))
    by (vm_compute; reflexivity).
  destruct (deploy_frontend_prompt_fails env root "admin.py" (fresh (dirty_repo [] []))
              _ _ _ Hdirty Hanswer) as [Hdeploy Hexit].
  split; [ exact Hdirty | ].
  split; [ exact Hanswer | ].
  split; [ now rewrite Hdeploy | exact Hexit ].
Defined.

(** Two spellings of the status command. *)
Lemma main_reads_lowercased_command_run :
  lower env "Status" = lower env "STATUS"
  /\ main env root ["admin.py"; "Status"] (fresh clean_repo)
     = main env root ["./admin.py"; "STATUS"; "now"] (fresh clean_repo).
Proof.
  assert (H : lower env "Status" = lower env "STATUS") by reflexivity.
  split; [ exact H | ].
  exact (proj1 (main_reads_lowercased_command env root "admin.py" "./admin.py"
                  "Status" "STATUS" [] ["now"] (fresh clean_repo) H)).
Defined.

End MoreRuns.
